(** * libtwitch: token cache, subscription registry and webhook dispatcher

    A shallow embedding of [client.go] and [webhooks.go] of
    morgabra/libtwitch, and the properties of its push-notification
    subsystem.

    Conventions.
    - Go strings are [string] (sequences of bytes).
    - [time.Time] and [time.Duration] are [Z], in nanoseconds; [int] and
      [int64] are [Z] with the 64-bit wrap-around written out ([wrap64]).
    - [map[string]*StreamWatcher] is a [gmap string StreamWatcher].
    - A buffered channel is its capacity, its queue and its closed flag.
    - The network and the clock are oracles, indexed by the number of
      requests sent and of clock readings taken so far.
    - A critical section (code between [Lock] and [Unlock] of one mutex) is
      one atomic step of the state. *)

From Stdlib Require Import ZArith String Ascii List Bool Lia SpecFloat DecimalString.
From stdpp Require Import gmap strings list fin_maps.
Import ListNotations.

#[local] Set Warnings "-register-all".

Local Open Scope string_scope.
Local Open Scope Z_scope.

(** ** Strings and [net/url] *)

Module Url.

(** [shouldEscape(c, encodeQueryComponent)] is false exactly on the
    unreserved characters: letters, digits and [-_.~]. *)
Definition unreserved (a : ascii) : bool :=
  let n := N_of_ascii a in
  ((97 <=? n) && (n <=? 122))%N || ((65 <=? n) && (n <=? 90))%N
  || ((48 <=? n) && (n <=? 57))%N
  || (n =? 45)%N || (n =? 95)%N || (n =? 46)%N || (n =? 126)%N.

Definition upperhex (n : N) : ascii :=
  match String.get (N.to_nat n) "0123456789ABCDEF" with
  | Some a => a
  | None => "0"%char
  end.

(** [url.QueryEscape]: a space becomes [+], every other escaped byte
    becomes [%XX] in upper-case hexadecimal. *)
Fixpoint QueryEscape (s : string) : string :=
  match s with
  | EmptyString => EmptyString
  | String a r =>
      if unreserved a then String a (QueryEscape r)
      else if (N_of_ascii a =? 32)%N then String "+"%char (QueryEscape r)
      else String "%"%char
             (String (upperhex (N_of_ascii a / 16))
                (String (upperhex (N_of_ascii a mod 16)) (QueryEscape r)))
  end.

(** [url.Values]: a key with its list of values. *)
Definition Values := list (string * list string).

Fixpoint insert_sorted (kv : string * list string) (l : Values) : Values :=
  match l with
  | [] => [kv]
  | kv' :: r =>
      if String.leb (fst kv) (fst kv') then kv :: l
      else kv' :: insert_sorted kv r
  end.

Definition sort_keys (v : Values) : Values :=
  fold_right insert_sorted [] v.

Definition encode_key (k : string) (vs : list string) : list string :=
  map (fun v => QueryEscape k +:+ "=" +:+ QueryEscape v) vs.

Fixpoint join_amp (l : list string) : string :=
  match l with
  | [] => ""
  | [x] => x
  | x :: r => x +:+ "&" +:+ join_amp r
  end.

(** [Values.Encode]: ["k1=v1&k2=v2"], sorted by key. *)
Definition Encode (v : Values) : string :=
  join_amp (concat (map (fun kv => encode_key (fst kv) (snd kv)) (sort_keys v))).

(** A parsed query string, in the order of the request line;
    [Values.Get] is the first value of the key, or [""] . *)
Definition Query := list (string * string).

Fixpoint Get (q : Query) (k : string) : string :=
  match q with
  | [] => ""
  | (k', v) :: r => if String.eqb k' k then v else Get r k
  end.

End Url.

(** ** Topic keys and URLs (webhooks.go:17-43) *)

Definition makeTopicKey (topic userID : string) : string :=
  topic +:+ "/" +:+ userID.

Inductive error : Type :=
| ErrInvalidTopic                      (* errors.New("invalid topic") *)
| ErrAlreadySubscribed                 (* errors.New("already subscribed to topic") *)
| ErrClientIDRequired                  (* errors.New("client id is required") *)
| ErrTransport                         (* error of http.Client.Do / ReadAll / Close *)
| ErrAuthStatus (code : Z)             (* "authentication failed: HTTP %d" *)
| ErrJSON                              (* error of json.Unmarshal *)
| ErrRequest (cause : error)           (* NewTwitchClientError("error making request", err) *)
| ErrUnexpectedStatus (code : Z).      (* NewTwitchClientError("unexpected status code: %d", nil) *)

Definition makeTopicURL (topic userID : string) : error + string :=
  if String.eqb topic "streams" then
    inr ("https://api.twitch.tv/helix/streams?"
           +:+ Url.Encode [("user_id", [userID])])
  else if String.eqb topic "follows" then
    inr ("https://api.twitch.tv/helix/users/follows?"
           +:+ Url.Encode [("first", ["1"]); ("to_id", [userID])])
  else inl ErrInvalidTopic.

Definition makeCallbackURL (callbackURL topic userID : string) : error + string :=
  inr (callbackURL +:+ "?"
         +:+ Url.Encode [("user_id", [userID]); ("topic", [topic])]).

Example makeTopicURL_streams_42 :
  makeTopicURL "streams" "42" = inr "https://api.twitch.tv/helix/streams?user_id=42".
Proof. reflexivity. Qed.

Example makeTopicURL_follows_42 :
  makeTopicURL "follows" "42"
  = inr "https://api.twitch.tv/helix/users/follows?first=1&to_id=42".
Proof. reflexivity. Qed.

Example makeCallbackURL_42 :
  makeCallbackURL "http://cb" "streams" "a b/"
  = inr "http://cb?topic=streams&user_id=a+b%2F".
Proof. reflexivity. Qed.

(** ** [encoding/json]: decoding into the structs of this package *)

Module Json.

(** A syntactically valid JSON text, after unquoting.  A number literal
    is either an integer literal or one with a fraction or an exponent. *)
Inductive value : Type :=
| Null
| Bool (b : bool)
| Int (n : Z)
| Float (literal : string)
| Str (s : string)
| Arr (elems : list value)
| Obj (members : list (string * value)).

(** The bytes handed to [json.Unmarshal]. *)
Inductive text : Type :=
| Empty                       (* len(b) == 0 *)
| Invalid                     (* not empty, not valid JSON *)
| Valid (v : value).

(** A struct field as [reflect] shows it: the Go name and the name part
    of its [json:"..."] tag. *)
Record field : Type := Field { go_name : string; tag : option string }.

Definition json_name (f : field) : string :=
  match tag f with Some t => t | None => go_name f end.

Definition tagged (f : field) : bool :=
  match tag f with Some _ => true | None => false end.

(** [dominantField]: among the fields of one depth that claim a JSON
    name, a single one wins; of several, the only tagged one wins; two
    tagged ones, or several untagged ones, hide each other and the name
    is dropped without an error. *)
Definition dominant (fs : list field) (name : string) : option field :=
  match List.filter (fun f => String.eqb (json_name f) name) fs with
  | [] => None
  | [f] => Some f
  | cands =>
      match List.filter tagged cands with
      | [f] => Some f
      | _ => None
      end
  end.

(** [typeFields]: the fields a decoder can assign, in declaration order. *)
Definition typeFields (fs : list field) : list field :=
  List.filter (fun f => match dominant fs (json_name f) with
                   | Some g => String.eqb (go_name g) (go_name f)
                   | None => false
                   end) fs.

(** Case folding of a key.  ASCII letters fold to lower case; the only
    other runes that fold onto ASCII letters are U+017F (long s) and
    U+212A (Kelvin sign), given here by their UTF-8 bytes. *)
Definition lower (a : ascii) : ascii :=
  let n := N_of_ascii a in
  if ((65 <=? n) && (n <=? 90))%N then ascii_of_N (n + 32) else a.

Fixpoint fold_go (fuel : nat) (s : string) : string :=
  match fuel with
  | O => s
  | S fuel' =>
      match s with
      | String a (String b r) =>
          if ((N_of_ascii a =? 197) && (N_of_ascii b =? 191))%N
          then String "s"%char (fold_go fuel' r)
          else
            match r with
            | String c r' =>
                if ((N_of_ascii a =? 226) && (N_of_ascii b =? 132)
                    && (N_of_ascii c =? 170))%N
                then String "k"%char (fold_go fuel' r')
                else String (lower a) (fold_go fuel' (String b r))
            | EmptyString => String (lower a) (fold_go fuel' (String b r))
            end
      | String a EmptyString => String (lower a) EmptyString
      | EmptyString => EmptyString
      end
  end.

Definition foldName (s : string) : string := fold_go (String.length s) s.

(** The field a key of the input is stored into: the one with exactly
    that name, else the first whose name is equal under folding. *)
Definition find_field (fs : list field) (key : string) : option field :=
  match List.find (fun f => String.eqb (json_name f) key) fs with
  | Some f => Some f
  | None =>
      List.find (fun f => String.eqb (foldName (json_name f)) (foldName key)) fs
  end.

Definition int64_ok (n : Z) : bool :=
  (- 2 ^ 63 <=? n) && (n <=? 2 ^ 63 - 1).

(** Storing a value into a field of type [string], [int] or [[]string].
    [null] leaves a string or an int as it is and empties a slice; a
    value of the wrong kind is an [UnmarshalTypeError].  The callers in
    this package discard the target when [Unmarshal] returns an error,
    so the first error ends the decoding here. *)
Definition store_string (v : value) (old : string) : option string :=
  match v with
  | Null => Some old
  | Str s => Some s
  | _ => None
  end.

Definition store_int (v : value) (old : Z) : option Z :=
  match v with
  | Null => Some old
  | Int n => if int64_ok n then Some n else None
  | _ => None
  end.

Definition store_strings (v : value) (old : list string) : option (list string) :=
  match v with
  | Null => Some []
  | Arr l => mapM (fun e => store_string e "") l
  | _ => None
  end.

(** Decoding the members of an object in their order: a key with no
    field is skipped, a key given twice is stored twice. *)
Fixpoint object {T : Type} (fs : list field)
    (store : field -> value -> T -> option T)
    (members : list (string * value)) (acc : T) : option T :=
  match members with
  | [] => Some acc
  | (k, v) :: r =>
      match find_field fs k with
      | None => object fs store r acc
      | Some f =>
          match store f v acc with
          | Some acc' => object fs store r acc'
          | None => None
          end
      end
  end.

(** [json.Unmarshal(b, &t)] for a struct [t]: [null] is accepted and
    changes nothing. *)
Definition unmarshal_struct {T : Type} (fs : list field)
    (store : field -> value -> T -> option T) (b : text) (zero : T) : option T :=
  match b with
  | Valid Null => Some zero
  | Valid (Obj members) => object fs store members zero
  | _ => None
  end.

(** [json.Unmarshal(b, &s)] for [s] of type [[]*T]: [null] gives the nil
    slice, a [null] element gives a nil pointer. *)
Definition unmarshal_ptrs {T : Type} (fs : list field)
    (store : field -> value -> T -> option T) (zero : T) (b : text)
  : option (list (option T)) :=
  match b with
  | Valid Null => Some []
  | Valid (Arr l) =>
      mapM (fun e => match e with
                     | Null => Some None
                     | Obj members => Some <$> object fs store members zero
                     | _ => None
                     end) l
  | _ => None
  end.

End Json.

(** ** Numbers: [int64], [float64], [strconv.Itoa] *)

Definition wrap64 (n : Z) : Z :=
  (n + 2 ^ 63) mod 2 ^ 64 - 2 ^ 63.

Module Float64.

Definition prec : Z := 53.
Definition emax : Z := 1024.

(** [float64(n)] for an integer [n]: the nearest double, ties to even. *)
Definition of_int (n : Z) : spec_float := binary_normalize prec emax n 0 false.

Definition mul : spec_float -> spec_float -> spec_float := SFmul prec emax.
Definition add : spec_float -> spec_float -> spec_float := SFadd prec emax.
Definition div : spec_float -> spec_float -> spec_float := SFdiv prec emax.

(** The untyped constant [.9] converted to [float64]:
    0x3FECCCCCCCCCCCCD = 8106479329266893 * 2^-53. *)
Definition point_nine : spec_float := S754_finite false 8106479329266893 (-53).

(** [int64(f)] for a finite [f] in range: truncation toward zero. *)
Definition to_int (f : spec_float) : Z :=
  match f with
  | S754_finite s m e =>
      let a := if (0 <=? e) then Z.pos m * 2 ^ e else Z.pos m / 2 ^ (- e) in
      if s then - a else a
  | _ => 0
  end.

End Float64.

Definition Itoa (n : Z) : string := DecimalString.NilZero.string_of_int (Z.to_int n).

Module Time.

Definition Nanosecond : Z := 1.
Definition Second : Z := 1000000000.
Definition Minute : Z := 60 * Second.

(** [Duration.Seconds]: [float64(d / Second) + float64(d % Second) / 1e9]. *)
Definition Seconds (d : Z) : spec_float :=
  Float64.add (Float64.of_int (Z.quot d Second))
    (Float64.div (Float64.of_int (Z.rem d Second)) (Float64.of_int 1000000000)).

(** [t.Before(u)]. *)
Definition Before (t u : Z) : bool := t <? u.

(** [t.Add(d)]. *)
Definition Add (t d : Z) : Z := t + d.

(** The zero [time.Time], January 1 of year 1, in nanoseconds from the
    Unix epoch. *)
Definition zero : Z := -62135596800 * Second.

End Time.

Example Itoa_600 : Itoa (Float64.to_int (Time.Seconds (10 * Time.Minute))) = "600".
Proof. vm_compute. reflexivity. Qed.

Example point_nine_of_600s :
  Float64.to_int (Float64.mul (Float64.of_int (10 * Time.Minute)) Float64.point_nine)
  = 540 * Time.Second.
Proof. vm_compute. reflexivity. Qed.

(** ** Data model (client.go:21-57, the API types, webhooks.go:45-51, 178-190) *)

Definition oAuthTokenEndpoint : string := "https://id.twitch.tv/oauth2/token".
Definition apiEndpoint : string := "https://api.twitch.tv/helix/".

Record AccessToken : Type := mkAccessToken {
  Token_AccessToken : string;
  Token_RefreshToken : string;
  Token_ExpiresIn : Z;
  Token_Scope : string;
  Token_ExpiresAt : Z
}.

(** The fields of [AccessToken] with their tags, as declared:
    [ExpiresIn] carries the tag of [RefreshToken]. *)
Definition AccessToken_fields : list Json.field :=
  [ Json.Field "AccessToken" (Some "access_token");
    Json.Field "RefreshToken" (Some "refresh_token");
    Json.Field "ExpiresIn" (Some "refresh_token");
    Json.Field "Scope" (Some "scope");
    Json.Field "ExpiresAt" None ].

Record Stream : Type := mkStream {
  Stream_ID : string;
  Stream_UserID : string;
  Stream_GameID : string;
  Stream_CommunityIDs : list string;
  Stream_Type : string;
  Stream_Title : string;
  Stream_ViewerCount : Z;
  Stream_StartedAt : string;
  Stream_Language : string;
  Stream_ThumbnailURL : string
}.

Definition Stream_fields : list Json.field :=
  [ Json.Field "ID" (Some "id");
    Json.Field "UserID" (Some "user_id");
    Json.Field "GameID" (Some "game_id");
    Json.Field "CommunityIDs" (Some "community_ids");
    Json.Field "Type" (Some "type");
    Json.Field "Title" (Some "title");
    Json.Field "ViewerCount" (Some "viewer_count");
    Json.Field "StartedAt" (Some "started_at");
    Json.Field "Language" (Some "language");
    Json.Field "ThumbnailURL" (Some "thumbnail_url") ].

Record Follow : Type := mkFollow {
  Follow_FromID : string;
  Follow_ToID : string;
  Follow_FollowedAt : string
}.

Definition Follow_fields : list Json.field :=
  [ Json.Field "FromID" (Some "from_id");
    Json.Field "ToID" (Some "to_id");
    Json.Field "FollowedAt" (Some "followed_at") ].

(** [Response]: the [data] member, kept raw; [None] is the empty
    [json.RawMessage] of a response without that member. *)
Record Response : Type := mkResponse { Data : option Json.value }.

Definition Response_fields : list Json.field :=
  [ Json.Field "Data" (Some "data") ].

Record WebhookSubscription : Type := mkWebhookSubscription {
  Mode : string;
  Topic : string;
  Callback : string;
  Lease : string;
  Secret : string
}.

(** A buffered channel: [make(chan T, n)], what is queued, and whether
    [close] was called. *)
Record chan (T : Type) : Type := mkChan {
  chan_cap : nat;
  chan_buf : list T;
  chan_closed : bool
}.
Arguments mkChan {T}.
Arguments chan_cap {T}.
Arguments chan_buf {T}.
Arguments chan_closed {T}.

Definition make_chan {T : Type} (n : nat) : chan T := mkChan n [] false.

Definition close_chan {T : Type} (c : chan T) : chan T :=
  mkChan (chan_cap c) (chan_buf c) true.

Inductive send_result : Type :=
| Sent
| Dropped
| SendOnClosed.   (* run-time panic: send on closed channel *)

(** [select { case c <- v: default: }]: the send is chosen when the buffer
    has room, [default] when it is full; on a closed channel the send
    panics. *)
Definition try_send {T : Type} (c : chan T) (v : T) : chan T * send_result :=
  if chan_closed c then (c, SendOnClosed)
  else if (length (chan_buf c) <? chan_cap c)%nat
       then (mkChan (chan_cap c) (chan_buf c ++ [v]) false, Sent)
       else (c, Dropped).

Record StreamWatcher : Type := mkStreamWatcher {
  sw_streams : chan (option Stream);
  sw_follows : chan (option Follow);
  sw_topic : string;
  sw_userID : string;
  sw_lease : Z;
  sw_cancelled : bool        (* sw.cancel() was called *)
}.

Definition topicKey (sw : StreamWatcher) : string :=
  makeTopicKey (sw_topic sw) (sw_userID sw).

Record TwitchClient : Type := mkTwitchClient {
  endpoint : string;
  clientID : string;
  clientSecret : string;
  token : option AccessToken;
  callbackURL : string;
  callbackSecret : string;
  streamWatchers : gmap string StreamWatcher;
  debug : bool
}.

Definition set_token (c : TwitchClient) (t : option AccessToken) : TwitchClient :=
  mkTwitchClient (endpoint c) (clientID c) (clientSecret c) t
    (callbackURL c) (callbackSecret c) (streamWatchers c) (debug c).

Definition set_streamWatchers (c : TwitchClient) (m : gmap string StreamWatcher)
  : TwitchClient :=
  mkTwitchClient (endpoint c) (clientID c) (clientSecret c) (token c)
    (callbackURL c) (callbackSecret c) m (debug c).

(** [NewTwitchClient], given the secret [makeSecret] drew. *)
Definition NewTwitchClient (clientID clientSecret callbackURL secret : string)
    (debug : bool) : TwitchClient :=
  mkTwitchClient apiEndpoint clientID clientSecret None callbackURL secret ∅ debug.

(** ** Outbound HTTP *)

Record HttpRequest : Type := mkHttpRequest {
  req_method : string;
  req_url : string;
  req_header : list (string * string);
  req_body : option WebhookSubscription
}.

(** [Header.Set]: replaces the values of the key. *)
Definition Header_Set (h : list (string * string)) (k v : string)
  : list (string * string) :=
  List.filter (fun kv => negb (String.eqb (fst kv) k)) h ++ [(k, v)].

Definition Header_Get (h : list (string * string)) (k : string) : option string :=
  snd <$> List.find (fun kv => String.eqb (fst kv) k) h.

Definition set_header (r : HttpRequest) (k v : string) : HttpRequest :=
  mkHttpRequest (req_method r) (req_url r) (Header_Set (req_header r) k v) (req_body r).

(** What [doRequest] sees: a transport failure, or a status code and a
    body that was read to its end. *)
Inductive NetResult : Type :=
| NetError
| NetResponse (status : Z) (body : Json.text).

(** The client together with its environment: the requests sent so far and
    the number of clock readings taken so far. *)
Record World : Type := mkWorld {
  client : TwitchClient;
  sent : list HttpRequest;
  clock_reads : nat
}.

Definition with_client (w : World) (c : TwitchClient) : World :=
  mkWorld c (sent w) (clock_reads w).

(** ** Decoders of the structs *)

(** [Time.UnmarshalJSON]: [null] is a no-op, a string is parsed as
    RFC 3339, anything else is an error. *)
Definition store_time (parse_rfc3339 : string -> option Z)
    (v : Json.value) (old : Z) : option Z :=
  match v with
  | Json.Null => Some old
  | Json.Str s => parse_rfc3339 s
  | _ => None
  end.

Definition store_AccessToken (parse_rfc3339 : string -> option Z)
    (f : Json.field) (v : Json.value) (t : AccessToken) : option AccessToken :=
  let n := Json.go_name f in
  if String.eqb n "AccessToken" then
    s ← Json.store_string v (Token_AccessToken t);
    Some (mkAccessToken s (Token_RefreshToken t) (Token_ExpiresIn t)
            (Token_Scope t) (Token_ExpiresAt t))
  else if String.eqb n "RefreshToken" then
    s ← Json.store_string v (Token_RefreshToken t);
    Some (mkAccessToken (Token_AccessToken t) s (Token_ExpiresIn t)
            (Token_Scope t) (Token_ExpiresAt t))
  else if String.eqb n "ExpiresIn" then
    k ← Json.store_int v (Token_ExpiresIn t);
    Some (mkAccessToken (Token_AccessToken t) (Token_RefreshToken t) k
            (Token_Scope t) (Token_ExpiresAt t))
  else if String.eqb n "Scope" then
    s ← Json.store_string v (Token_Scope t);
    Some (mkAccessToken (Token_AccessToken t) (Token_RefreshToken t)
            (Token_ExpiresIn t) s (Token_ExpiresAt t))
  else if String.eqb n "ExpiresAt" then
    e ← store_time parse_rfc3339 v (Token_ExpiresAt t);
    Some (mkAccessToken (Token_AccessToken t) (Token_RefreshToken t)
            (Token_ExpiresIn t) (Token_Scope t) e)
  else Some t.

Definition AccessToken_zero : AccessToken := mkAccessToken "" "" 0 "" Time.zero.

(** [t := &AccessToken{}; json.Unmarshal(body, t)]. *)
Definition unmarshal_AccessToken (parse_rfc3339 : string -> option Z)
    (body : Json.text) : option AccessToken :=
  Json.unmarshal_struct (Json.typeFields AccessToken_fields)
    (store_AccessToken parse_rfc3339) body AccessToken_zero.

Definition store_Stream (f : Json.field) (v : Json.value) (s : Stream)
  : option Stream :=
  let n := Json.go_name f in
  let str (get : Stream -> string) (set : string -> Stream) : option Stream :=
    x ← Json.store_string v (get s); Some (set x) in
  if String.eqb n "ID" then
    str Stream_ID (fun x => mkStream x (Stream_UserID s) (Stream_GameID s)
      (Stream_CommunityIDs s) (Stream_Type s) (Stream_Title s) (Stream_ViewerCount s)
      (Stream_StartedAt s) (Stream_Language s) (Stream_ThumbnailURL s))
  else if String.eqb n "UserID" then
    str Stream_UserID (fun x => mkStream (Stream_ID s) x (Stream_GameID s)
      (Stream_CommunityIDs s) (Stream_Type s) (Stream_Title s) (Stream_ViewerCount s)
      (Stream_StartedAt s) (Stream_Language s) (Stream_ThumbnailURL s))
  else if String.eqb n "GameID" then
    str Stream_GameID (fun x => mkStream (Stream_ID s) (Stream_UserID s) x
      (Stream_CommunityIDs s) (Stream_Type s) (Stream_Title s) (Stream_ViewerCount s)
      (Stream_StartedAt s) (Stream_Language s) (Stream_ThumbnailURL s))
  else if String.eqb n "CommunityIDs" then
    l ← Json.store_strings v (Stream_CommunityIDs s);
    Some (mkStream (Stream_ID s) (Stream_UserID s) (Stream_GameID s)
      l (Stream_Type s) (Stream_Title s) (Stream_ViewerCount s)
      (Stream_StartedAt s) (Stream_Language s) (Stream_ThumbnailURL s))
  else if String.eqb n "Type" then
    str Stream_Type (fun x => mkStream (Stream_ID s) (Stream_UserID s) (Stream_GameID s)
      (Stream_CommunityIDs s) x (Stream_Title s) (Stream_ViewerCount s)
      (Stream_StartedAt s) (Stream_Language s) (Stream_ThumbnailURL s))
  else if String.eqb n "Title" then
    str Stream_Title (fun x => mkStream (Stream_ID s) (Stream_UserID s) (Stream_GameID s)
      (Stream_CommunityIDs s) (Stream_Type s) x (Stream_ViewerCount s)
      (Stream_StartedAt s) (Stream_Language s) (Stream_ThumbnailURL s))
  else if String.eqb n "ViewerCount" then
    k ← Json.store_int v (Stream_ViewerCount s);
    Some (mkStream (Stream_ID s) (Stream_UserID s) (Stream_GameID s)
      (Stream_CommunityIDs s) (Stream_Type s) (Stream_Title s) k
      (Stream_StartedAt s) (Stream_Language s) (Stream_ThumbnailURL s))
  else if String.eqb n "StartedAt" then
    str Stream_StartedAt (fun x => mkStream (Stream_ID s) (Stream_UserID s) (Stream_GameID s)
      (Stream_CommunityIDs s) (Stream_Type s) (Stream_Title s) (Stream_ViewerCount s)
      x (Stream_Language s) (Stream_ThumbnailURL s))
  else if String.eqb n "Language" then
    str Stream_Language (fun x => mkStream (Stream_ID s) (Stream_UserID s) (Stream_GameID s)
      (Stream_CommunityIDs s) (Stream_Type s) (Stream_Title s) (Stream_ViewerCount s)
      (Stream_StartedAt s) x (Stream_ThumbnailURL s))
  else if String.eqb n "ThumbnailURL" then
    str Stream_ThumbnailURL (fun x => mkStream (Stream_ID s) (Stream_UserID s) (Stream_GameID s)
      (Stream_CommunityIDs s) (Stream_Type s) (Stream_Title s) (Stream_ViewerCount s)
      (Stream_StartedAt s) (Stream_Language s) x)
  else Some s.

Definition Stream_zero : Stream := mkStream "" "" "" [] "" "" 0 "" "" "".

Definition store_Follow (f : Json.field) (v : Json.value) (x : Follow)
  : option Follow :=
  let n := Json.go_name f in
  if String.eqb n "FromID" then
    s ← Json.store_string v (Follow_FromID x);
    Some (mkFollow s (Follow_ToID x) (Follow_FollowedAt x))
  else if String.eqb n "ToID" then
    s ← Json.store_string v (Follow_ToID x);
    Some (mkFollow (Follow_FromID x) s (Follow_FollowedAt x))
  else if String.eqb n "FollowedAt" then
    s ← Json.store_string v (Follow_FollowedAt x);
    Some (mkFollow (Follow_FromID x) (Follow_ToID x) s)
  else Some x.

Definition Follow_zero : Follow := mkFollow "" "" "".

(** [json.RawMessage] keeps the member as it is, [null] included. *)
Definition store_Response (f : Json.field) (v : Json.value) (r : Response)
  : option Response :=
  if String.eqb (Json.go_name f) "Data" then Some (mkResponse (Some v)) else Some r.

(** The bytes of a [json.RawMessage]. *)
Definition raw_text (d : option Json.value) : Json.text :=
  match d with
  | None => Json.Empty
  | Some v => Json.Valid v
  end.

(** [streams := []*Stream{}; json.Unmarshal(response.Data, &streams)]. *)
Definition unmarshal_Streams (d : option Json.value) : option (list (option Stream)) :=
  Json.unmarshal_ptrs (Json.typeFields Stream_fields) store_Stream Stream_zero (raw_text d).

(** [follows := []*Follow{}; json.Unmarshal(response.Data, &follows)]. *)
Definition unmarshal_Follows (d : option Json.value) : option (list (option Follow)) :=
  Json.unmarshal_ptrs (Json.typeFields Follow_fields) store_Follow Follow_zero (raw_text d).

(** client.go:188-197. *)
Definition marshalResponse (b : Json.text) : option Response :=
  match b with
  | Json.Empty => Some (mkResponse None)
  | _ => Json.unmarshal_struct (Json.typeFields Response_fields) store_Response b
           (mkResponse None)
  end.

Example typeFields_AccessToken :
  map Json.go_name (Json.typeFields AccessToken_fields)
  = ["AccessToken"; "Scope"; "ExpiresAt"].
Proof. reflexivity. Qed.

Example unmarshal_Streams_viewers :
  unmarshal_Streams
    (Some (Json.Arr [Json.Obj [("user_id", Json.Str "42"); ("viewer_count", Json.Int 10)]]))
  = Some [Some (mkStream "" "42" "" [] "" "" 10 "" "" "")].
Proof. reflexivity. Qed.

Example find_field_folds :
  Json.json_name <$> Json.find_field (Json.typeFields Stream_fields) "Viewer_Count"
  = Some "viewer_count".
Proof. reflexivity. Qed.

Example unmarshal_Follows_null_entry :
  unmarshal_Follows (Some (Json.Arr [Json.Null])) = Some [None].
Proof. reflexivity. Qed.

(** ** The client (client.go:103-243, webhooks.go:196-334) *)

Section Client.

(** The environment: the answer to the [n]-th outbound request, the
    [n]-th reading of [time.Now()], and the RFC 3339 parser of [time]. *)
Variable net : nat -> HttpRequest -> NetResult.
Variable clock : nat -> Z.
Variable parse_rfc3339 : string -> option Z.

(** [time.Now()]. *)
Definition now (w : World) : World * Z :=
  (mkWorld (client w) (sent w) (S (clock_reads w)), clock (clock_reads w)).

(** client.go:103-129. *)
Definition doRequest (w : World) (request : HttpRequest)
  : World * (error + Z * Json.text) :=
  let w' := mkWorld (client w) (sent w ++ [request]) (clock_reads w) in
  match net (length (sent w)) request with
  | NetError => (w', inl ErrTransport)
  | NetResponse status body => (w', inr (status, body))
  end.

(** client.go:148: [c.token != nil && c.token.ExpiresAt.Before(time.Now())];
    the clock is read only when a token is cached. *)
Definition cached_token (w : World) : World * option AccessToken :=
  match token (client w) with
  | None => (w, None)
  | Some t =>
      let (w1, n) := now w in
      if Time.Before (Token_ExpiresAt t) n then (w1, Some t) else (w1, None)
  end.

Definition bearer (t : AccessToken) : string := "Bearer " +:+ Token_AccessToken t.

Definition token_request (c : TwitchClient) : HttpRequest :=
  mkHttpRequest "POST"
    (oAuthTokenEndpoint +:+ "?"
       +:+ Url.Encode [("client_id", [clientID c]);
                       ("client_secret", [clientSecret c]);
                       ("grant_type", ["client_credentials"])])
    [] None.

(** client.go:133-186.  Header keys are written as in the source. *)
Definition authenticate (w : World) (request : HttpRequest)
  : World * (error + HttpRequest) :=
  let c := client w in
  if String.eqb (clientID c) "" then (w, inl ErrClientIDRequired)
  else if String.eqb (clientSecret c) "" then
    (w, inr (set_header request "Client-ID" (clientID c)))
  else
    match cached_token w with
    | (w1, Some t) => (w1, inr (set_header request "Authorization" (bearer t)))
    | (w1, None) =>
        match doRequest w1 (token_request c) with
        | (w2, inl e) => (w2, inl e)
        | (w2, inr (status, body)) =>
            if negb (status =? 200) then (w2, inl (ErrAuthStatus status))
            else
              match unmarshal_AccessToken parse_rfc3339 body with
              | None => (w2, inl ErrJSON)
              | Some t =>
                  let (w3, n) := now w2 in
                  let t' :=
                    mkAccessToken (Token_AccessToken t) (Token_RefreshToken t)
                      (Token_ExpiresIn t) (Token_Scope t)
                      (Time.Add n (wrap64 (Time.Second * Token_ExpiresIn t))) in
                  (with_client w3 (set_token (client w3) (Some t')),
                   inr (set_header request "Authorization" (bearer t')))
              end
        end
    end.

(** client.go:199-243, for a body that is a [WebhookSubscription] or nil.
    Encoding such a body and building the request cannot fail. *)
Definition Request (w : World) (method path : string) (params : option Url.Values)
    (body : option WebhookSubscription) : World * (error + Z * option Json.value) :=
  let c := client w in
  let url :=
    match params with
    | Some p => endpoint c +:+ path +:+ "?" +:+ Url.Encode p
    | None => endpoint c +:+ path
    end in
  match authenticate w (mkHttpRequest method url [] body) with
  | (w1, inl e) => (w1, inl e)
  | (w1, inr request) =>
      let request' :=
        set_header (set_header request "User-Agent" "libtwitch/v1")
          "Content-Type" "application/json" in
      match doRequest w1 request' with
      | (w2, inl e) => (w2, inl e)
      | (w2, inr (status, b)) =>
          match marshalResponse b with
          | None => (w2, inl ErrJSON)
          | Some response => (w2, inr (status, Data response))
          end
      end
  end.

(** The body of the subscribe request (webhooks.go:223-239). *)
Definition subscription (c : TwitchClient) (sw : StreamWatcher)
  : error + WebhookSubscription :=
  match makeTopicURL (sw_topic sw) (sw_userID sw) with
  | inl e => inl e
  | inr topicURL =>
      match makeCallbackURL (callbackURL c) (sw_topic sw) (sw_userID sw) with
      | inl e => inl e
      | inr cbURL =>
          inr (mkWebhookSubscription "subscribe" topicURL cbURL
                 (Itoa (Float64.to_int (Time.Seconds (sw_lease sw))))
                 (callbackSecret c))
      end
  end.

(** webhooks.go:221-251; the result is the error, [None] for [nil]. *)
Definition sub (w : World) (sw : StreamWatcher) : World * option error :=
  match subscription (client w) sw with
  | inl e => (w, Some e)
  | inr s =>
      match Request w "POST" "webhooks/hub" None (Some s) with
      | (w1, inl e) => (w1, Some (ErrRequest e))
      | (w1, inr (status, _)) =>
          if negb (status =? 202) then (w1, Some (ErrUnexpectedStatus status))
          else (w1, None)
      end
  end.

(** webhooks.go:314-323. *)
Definition removeStreamWatcher (c : TwitchClient) (topicKey : string) : TwitchClient :=
  match streamWatchers c !! topicKey with
  | None => c
  | Some _ => set_streamWatchers c (delete topicKey (streamWatchers c))
  end.

(** The registry read of the dispatcher (webhooks.go:92). *)
Definition lookupStreamWatcher (c : TwitchClient) (topic userID : string)
  : option StreamWatcher :=
  streamWatchers c !! makeTopicKey topic userID.

Definition newStreamWatcher (topic userID : string) : StreamWatcher :=
  mkStreamWatcher (make_chan 5) (make_chan 5) topic userID (10 * Time.Minute) false.

(** What [addStreamWatcher] has done when it first releases
    [streamWatchersMtx]. *)
Inductive add_outcome : Type :=
| AddAlready                                   (* line 281-282 *)
| AddFailed (sw : StreamWatcher) (e : error)   (* line 303, before 304 *)
| AddOk (sw : StreamWatcher).                  (* line 308-311 *)

(** webhooks.go:275-303 and 275-311: the critical section of
    [addStreamWatcher], from [Lock] to the first [Unlock]. *)
Definition addStreamWatcher_locked (w : World) (topic userID : string)
  : World * add_outcome :=
  let c := client w in
  match streamWatchers c !! makeTopicKey topic userID with
  | Some _ => (w, AddAlready)
  | None =>
      let sw := newStreamWatcher topic userID in
      let w1 :=
        with_client w (set_streamWatchers c (<[topicKey sw := sw]> (streamWatchers c))) in
      match sub w1 sw with
      | (w2, Some e) => (w2, AddFailed sw e)
      | (w2, None) => (w2, AddOk sw)
      end
  end.

(** webhooks.go:304-305 and the returns: after the failed subscribe the
    entry is removed in a critical section of its own. *)
Definition addStreamWatcher_finish (w : World) (o : add_outcome)
  : World * (error + StreamWatcher) :=
  match o with
  | AddAlready => (w, inl ErrAlreadySubscribed)
  | AddFailed sw e => (with_client w (removeStreamWatcher (client w) (topicKey sw)), inl e)
  | AddOk sw => (w, inr sw)
  end.

(** webhooks.go:274-312, run without another goroutine in between. *)
Definition addStreamWatcher (w : World) (topic userID : string)
  : World * (error + StreamWatcher) :=
  let (w1, o) := addStreamWatcher_locked w topic userID in
  addStreamWatcher_finish w1 o.

Definition WatchStream (w : World) (userID : string) : World * (error + StreamWatcher) :=
  addStreamWatcher w "streams" userID.

Definition WatchFollows (w : World) (userID : string) : World * (error + StreamWatcher) :=
  addStreamWatcher w "follows" userID.


(** What the [select] of the renewal loop receives. *)
Inductive resub_event : Type :=
| Tick     (* <-t.C *)
| Done.    (* <-sw.ctx.Done() *)

Inductive loop_state : Type :=
| Running      (* back in the select *)
| Returned.    (* t.Stop(); return *)

(** webhooks.go:196-219: the loop over the events it receives; the list
    holds the result of [sw.sub()] of every tick, oldest first. *)
Fixpoint resub (w : World) (sw : StreamWatcher) (evs : list resub_event)
  : World * list (option error) * loop_state :=
  match evs with
  | [] => (w, [], Running)
  | Tick :: rest =>
      let (w1, err) := sub w sw in
      let '(w2, log, st) := resub w1 sw rest in
      (w2, err :: log, st)
  | Done :: _ => (w, [], Returned)
  end.

End Client.

(** webhooks.go:259-261: what [Close] does to the watcher before it asks
    for [streamWatchersMtx] to take the entry out of the registry. *)
Definition Close_channels (sw : StreamWatcher) : StreamWatcher :=
  mkStreamWatcher (close_chan (sw_streams sw)) (close_chan (sw_follows sw))
    (sw_topic sw) (sw_userID sw) (sw_lease sw) true.

(** ** The webhook dispatcher (webhooks.go:53-176) *)

(** The inbound request: its query and what [ioutil.ReadAll(r.Body)]
    gives, [None] for an error. *)
Record WebhookRequest : Type := mkWebhookRequest {
  wr_query : Url.Query;
  wr_body : option Json.text
}.

(** What the handler leaves behind: a status line and a body, or a
    run-time panic before anything was written. *)
Inductive response : Type :=
| Responded (status : Z) (body : string)
| Panicked.

Definition StatusOK : Z := 200.
Definition StatusAccepted : Z := 202.

Definition set_streams (sw : StreamWatcher) (ch : chan (option Stream)) : StreamWatcher :=
  mkStreamWatcher ch (sw_follows sw) (sw_topic sw) (sw_userID sw) (sw_lease sw)
    (sw_cancelled sw).

Definition set_follows (sw : StreamWatcher) (ch : chan (option Follow)) : StreamWatcher :=
  mkStreamWatcher (sw_streams sw) ch (sw_topic sw) (sw_userID sw) (sw_lease sw)
    (sw_cancelled sw).

(** webhooks.go:134-139: the loop over the decoded streams; [false] when
    a send panicked. *)
Fixpoint send_streams (ch : chan (option Stream)) (streams : list (option Stream))
  : chan (option Stream) * bool :=
  match streams with
  | [] => (ch, true)
  | stream :: rest =>
      match try_send ch stream with
      | (ch', SendOnClosed) => (ch', false)
      | (ch', _) => send_streams ch' rest
      end
  end.

(** webhooks.go:158-165: the loop over the decoded follows.  The argument
    [follow.FromID] of the log call is evaluated first, whatever [debug]
    is: on a nil entry it is a nil dereference. *)
Fixpoint send_follows (ch : chan (option Follow)) (follows : list (option Follow))
  : chan (option Follow) * bool :=
  match follows with
  | [] => (ch, true)
  | None :: _ => (ch, false)
  | Some follow :: rest =>
      match try_send ch (Some follow) with
      | (ch', SendOnClosed) => (ch', false)
      | (ch', _) => send_follows ch' rest
      end
  end.

Definition finish (ok : bool) : response :=
  if ok then Responded StatusOK "" else Panicked.

(** The delivery branch (webhooks.go:78-173), one critical section of
    [streamWatchersMtx] from the registry read on. *)
Definition deliver (c : TwitchClient) (r : WebhookRequest) : TwitchClient * response :=
  let topic := Url.Get (wr_query r) "topic" in
  let userID := Url.Get (wr_query r) "user_id" in
  if String.eqb topic "" || String.eqb userID "" then (c, Responded StatusOK "")
  else
    match streamWatchers c !! makeTopicKey topic userID with
    | None => (c, Responded StatusOK "")
    | Some sw =>
        match wr_body r with
        | None => (c, Responded StatusOK "")
        | Some body =>
            match marshalResponse body with
            | None => (c, Responded StatusOK "")
            | Some response =>
                let key := makeTopicKey topic userID in
                if String.eqb topic "streams" then
                  match unmarshal_Streams (Data response) with
                  | None => (c, Responded StatusOK "")
                  | Some [] =>
                      let (ch, res) := try_send (sw_streams sw) None in
                      (set_streamWatchers c (<[key := set_streams sw ch]> (streamWatchers c)),
                       finish (match res with SendOnClosed => false | _ => true end))
                  | Some streams =>
                      let (ch, ok) := send_streams (sw_streams sw) streams in
                      (set_streamWatchers c (<[key := set_streams sw ch]> (streamWatchers c)),
                       finish ok)
                  end
                else if String.eqb topic "follows" then
                  match unmarshal_Follows (Data response) with
                  | None => (c, Responded StatusOK "")
                  | Some [] => (c, Responded StatusOK "")
                  | Some follows =>
                      let (ch, ok) := send_follows (sw_follows sw) follows in
                      (set_streamWatchers c (<[key := set_follows sw ch]> (streamWatchers c)),
                       finish ok)
                  end
                else (c, Responded StatusOK "")
            end
        end
    end.

(** webhooks.go:53-176.  [rw.Write] without a status line sends 200. *)
Definition WebhookHandler (c : TwitchClient) (r : WebhookRequest)
  : TwitchClient * response :=
  let mode := Url.Get (wr_query r) "hub.mode" in
  if String.eqb mode "subscribe" then
    (c, Responded StatusOK (Url.Get (wr_query r) "hub.challenge"))
  else if String.eqb mode "unsubscribe" then
    (c, Responded StatusOK (Url.Get (wr_query r) "hub.challenge"))
  else if String.eqb mode "denied" then
    (removeStreamWatcher c (Url.Get (wr_query r) "hub.topic"), Responded StatusOK "")
  else deliver c r.

(** ** Goroutines

    The steps other goroutines can take between two critical sections of
    [addStreamWatcher]: one goroutine is adding, the handler serves
    requests.  [pending] is the outcome the adding goroutine holds between
    its first [Unlock] and the rest of the function. *)

Inductive step : Type :=
| StepAddLocked (topic userID : string)    (* webhooks.go:275 to the first Unlock *)
| StepAddFinish                            (* from there to the return *)
| StepWebhook (r : WebhookRequest).

Record Sched : Type := mkSched {
  world : World;
  pending : option add_outcome;
  returned : list (error + StreamWatcher);   (* results of the Adds, oldest first *)
  responses : list response                  (* responses of the handler, oldest first *)
}.

Section Goroutines.

Variable net : nat -> HttpRequest -> NetResult.
Variable clock : nat -> Z.
Variable parse_rfc3339 : string -> option Z.

Definition run_step (s : Sched) (st : step) : Sched :=
  match st with
  | StepAddLocked topic userID =>
      match pending s with
      | Some _ => s
      | None =>
          let (w, o) := addStreamWatcher_locked net clock parse_rfc3339 (world s) topic userID in
          mkSched w (Some o) (returned s) (responses s)
      end
  | StepAddFinish =>
      match pending s with
      | None => s
      | Some o =>
          let (w, res) := addStreamWatcher_finish (world s) o in
          mkSched w None (returned s ++ [res]) (responses s)
      end
  | StepWebhook r =>
      let (c, resp) := WebhookHandler (client (world s)) r in
      mkSched (with_client (world s) c) (pending s) (returned s) (responses s ++ [resp])
  end.

Definition run (s : Sched) (steps : list step) : Sched :=
  fold_left run_step steps s.

End Goroutines.

(** * Properties *)

Local Open Scope list_scope.

(** ** Frame lemmas: what the outbound calls leave alone *)

(** Everything of the client except the cached token. *)
Definition same_config (c c' : TwitchClient) : Prop :=
  endpoint c' = endpoint c /\ clientID c' = clientID c
  /\ clientSecret c' = clientSecret c /\ callbackURL c' = callbackURL c
  /\ callbackSecret c' = callbackSecret c
  /\ streamWatchers c' = streamWatchers c /\ debug c' = debug c.

Lemma same_config_refl c : same_config c c.
Proof. repeat split. Qed.


Lemma same_config_set_token c t : same_config c (set_token c t).
Proof. repeat split. Qed.

Ltac break_match :=
  match goal with
  | |- context [match ?x with _ => _ end] => destruct x eqn:?
  | |- context [if ?x then _ else _] => destruct x eqn:?
  end.

Section ClientFacts.

Variable net : nat -> HttpRequest -> NetResult.
Variable clock : nat -> Z.
Variable parse_rfc3339 : string -> option Z.




Lemma doRequest_sent w r w' res :
  doRequest net w r = (w', res) ->
  client w' = client w /\ sent w' = sent w ++ [r] /\ clock_reads w' = clock_reads w.
Proof.
  unfold doRequest. destruct (net _ _); intros H; inversion H; subst; simpl; auto.
Qed.

Lemma cached_token_frame w w' o :
  cached_token clock w = (w', o) -> client w' = client w /\ sent w' = sent w.
Proof.
  unfold cached_token, now. destruct (token (client w)).
  - destruct (Time.Before _ _); intros H; inversion H; subst; simpl; auto.
  - intros H; inversion H; subst; auto.
Qed.

(** [authenticate] changes the token only, and sends at most the token
    request. *)
Lemma authenticate_frame w request w' res :
  authenticate net clock parse_rfc3339 w request = (w', res) ->
  same_config (client w) (client w')
  /\ (sent w' = sent w \/ sent w' = sent w ++ [token_request (client w)]).
Proof.
  unfold authenticate.
  destruct (String.eqb (clientID (client w)) "").
  { intros H; inversion H; subst. split; [apply same_config_refl | auto]. }
  destruct (String.eqb (clientSecret (client w)) "").
  { intros H; inversion H; subst. split; [apply same_config_refl | auto]. }
  destruct (cached_token clock w) as [w1 [t|]] eqn:Hc;
    destruct (cached_token_frame _ _ _ Hc) as [Hc1 Hc2].
  { intros H; inversion H; subst. rewrite Hc1. split; [apply same_config_refl | auto]. }
  destruct (doRequest net w1 (token_request (client w))) as [w2 r2] eqn:Hd.
  destruct (doRequest_sent _ _ _ _ Hd) as (Hd1 & Hd2 & _).
  assert (Hs : sent w2 = sent w ++ [token_request (client w)]) by congruence.
  assert (Hcl : client w2 = client w) by congruence.
  destruct r2 as [e | [status body]].
  { intros H; inversion H; subst. rewrite Hcl. split; [apply same_config_refl | auto]. }
  destruct (negb (status =? 200)).
  { intros H; inversion H; subst. rewrite Hcl. split; [apply same_config_refl | auto]. }
  destruct (unmarshal_AccessToken parse_rfc3339 body).
  2: { intros H; inversion H; subst. rewrite Hcl. split; [apply same_config_refl | auto]. }
  unfold now. intros H; inversion H; subst; simpl.
  rewrite Hcl. split; [apply same_config_set_token | auto].
Qed.

(** The request [Request] hands to the network after authentication:
    same method, URL and body, with the headers set. *)
Definition hub_request (c : TwitchClient) (s : WebhookSubscription) (r : HttpRequest)
  : Prop :=
  req_method r = "POST" /\ req_url r = endpoint c +:+ "webhooks/hub"
  /\ req_body r = Some s.

Lemma Request_frame w s w' res :
  Request net clock parse_rfc3339 w "POST" "webhooks/hub" None (Some s) = (w', res) ->
  same_config (client w) (client w')
  /\ exists new, sent w' = sent w ++ new
       /\ Forall (fun r => r = token_request (client w) \/ hub_request (client w) s r) new.
Proof.
  unfold Request.
  destruct (authenticate net clock parse_rfc3339 w _) as [w1 r1] eqn:Ha.
  destruct (authenticate_frame _ _ _ _ Ha) as [Hcfg Hsent].
  assert (Hnew1 : exists new, sent w1 = sent w ++ new
            /\ Forall (fun r => r = token_request (client w)
                                \/ hub_request (client w) s r) new).
  { destruct Hsent as [-> | ->].
    - exists []. rewrite app_nil_r. split; [reflexivity | constructor].
    - eexists. split; [reflexivity |]. constructor; [left; reflexivity | constructor]. }
  destruct r1 as [e | request].
  { intros H; inversion H; subst. auto. }
  assert (Hreq : hub_request (client w) s
           (set_header (set_header request "User-Agent" "libtwitch/v1")
              "Content-Type" "application/json")).
  { revert Ha. unfold authenticate.
    repeat break_match; intros H; inversion H; subst; repeat split. }
  destruct (doRequest net w1 _) as [w2 r2] eqn:Hd.
  destruct (doRequest_sent _ _ _ _ Hd) as (Hd1 & Hd2 & _).
  destruct Hnew1 as (new & Hnew & Hall).
  assert (Hfinal : same_config (client w) (client w2)
    /\ exists new', sent w2 = sent w ++ new'
         /\ Forall (fun r => r = token_request (client w)
                             \/ hub_request (client w) s r) new').
  { split; [rewrite Hd1; exact Hcfg |].
    exists (new ++ [set_header (set_header request "User-Agent" "libtwitch/v1")
                     "Content-Type" "application/json"]).
    split; [rewrite Hd2, Hnew, <- app_assoc; reflexivity |].
    apply Forall_app. split; [exact Hall |]. constructor; [right; exact Hreq | constructor]. }
  destruct r2 as [e | [status b]].
  { intros H; inversion H; subst. exact Hfinal. }
  destruct (marshalResponse b); intros H; inversion H; subst; exact Hfinal.
Qed.

Lemma sub_frame w sw w' err :
  sub net clock parse_rfc3339 w sw = (w', err) ->
  same_config (client w) (client w')
  /\ exists new, sent w' = sent w ++ new
       /\ forall s, subscription (client w) sw = inr s ->
            Forall (fun r => r = token_request (client w)
                             \/ hub_request (client w) s r) new.
Proof.
  unfold sub.
  destruct (subscription (client w) sw) as [e | s] eqn:Hs.
  { intros H; inversion H; subst. split; [apply same_config_refl |].
    exists []. rewrite app_nil_r. split; [reflexivity | intros; discriminate]. }
  destruct (Request net clock parse_rfc3339 w _ _ _ _) as [w1 r1] eqn:Hr.
  destruct (Request_frame _ _ _ _ Hr) as (Hcfg & new & Hnew & Hall).
  assert (Hfinal : same_config (client w) (client w1)
    /\ exists new, sent w1 = sent w ++ new
       /\ forall s0, @inr error _ s = inr s0 ->
            Forall (fun r => r = token_request (client w)
                             \/ hub_request (client w) s0 r) new).
  { split; [exact Hcfg |]. exists new. split; [exact Hnew |].
    intros s0 Heq. inversion Heq; subst. exact Hall. }
  destruct r1 as [e | [status d]].
  { intros H; inversion H; subst. exact Hfinal. }
  destruct (negb (status =? 202)); intros H; inversion H; subst; exact Hfinal.
Qed.

End ClientFacts.

(** ** Concrete environments *)

Module Scenario.

(** The answer of the identity endpoint:
    [{"access_token":"abc","refresh_token":"r","expires_in":3600,"scope":""}]. *)
Definition token_response : Json.text :=
  Json.Valid (Json.Obj [("access_token", Json.Str "abc");
                        ("refresh_token", Json.Str "r");
                        ("expires_in", Json.Int 3600);
                        ("scope", Json.Str "")]).

(** A network in which the identity endpoint answers 200 with
    [token_response] and the API answers 202 with an empty body. *)
Definition net_up (n : nat) (r : HttpRequest) : NetResult :=
  if String.prefix oAuthTokenEndpoint (req_url r)
  then NetResponse 200 token_response
  else NetResponse StatusAccepted Json.Empty.

(** A network in which every request fails in transport. *)
Definition net_down (n : nat) (r : HttpRequest) : NetResult := NetError.

(** A clock that stands at [t]; one that starts at 1000 and advances by
    one nanosecond a reading. *)
Definition clock_at (t : Z) (n : nat) : Z := t.
Definition clock_from_1000 (n : nat) : Z := 1000 + Z.of_nat n.

Definition no_rfc3339 (s : string) : option Z := None.

Definition c0 : TwitchClient := NewTwitchClient "id" "secret" "http://cb" "s3cr3t" false.
Definition w0 : World := mkWorld c0 [] 0.

Definition get_users : HttpRequest :=
  mkHttpRequest "GET" "https://api.twitch.tv/helix/users?login=x" [] None.

(** A cached token that expired at 100, one that expires at 300. *)
Definition expired_token : AccessToken := mkAccessToken "old" "" 0 "" 100.
Definition valid_token : AccessToken := mkAccessToken "cur" "" 0 "" 300.

Definition with_token (t : AccessToken) : World :=
  mkWorld (set_token c0 (Some t)) [] 0.

End Scenario.

(** ** The token cache *)

Section TokenCache.

Variable net : nat -> HttpRequest -> NetResult.
Variable clock : nat -> Z.
Variable parse_rfc3339 : string -> option Z.

(** The cache test of the code: a cached token is a hit exactly when its
    expiry lies before the reading of the clock. *)
Lemma cached_token_hit w :
  snd (cached_token clock w)
  = match token (client w) with
    | Some t => if Token_ExpiresAt t <? clock (clock_reads w) then Some t else None
    | None => None
    end.
Proof.
  unfold cached_token, now, Time.Before.
  destruct (token (client w)); [| reflexivity].
  destruct (_ <? _); reflexivity.
Qed.

(** No member of the response reaches [ExpiresIn] or [RefreshToken]: the
    two fields hide each other. *)
Lemma object_AccessToken_ExpiresIn members : forall t t',
  Json.object (Json.typeFields AccessToken_fields)
    (store_AccessToken parse_rfc3339) members t = Some t' ->
  Token_ExpiresIn t' = Token_ExpiresIn t
  /\ Token_RefreshToken t' = Token_RefreshToken t.
Proof.
  induction members as [| [k v] rest IH]; intros t t' H; simpl in H.
  - inversion H; subst; auto.
  - destruct (Json.find_field _ k) as [f |] eqn:Hf; [| apply IH; exact H].
    destruct (store_AccessToken parse_rfc3339 f v t) as [t1 |] eqn:Hs; [| discriminate].
    apply IH in H. destruct H as [H1 H2]. rewrite H1, H2.
    assert (Hin : In f (Json.typeFields AccessToken_fields)).
    { unfold Json.find_field in Hf.
      destruct (List.find _ _) eqn:H0 in Hf.
      - inversion Hf; subst. eapply List.find_some; eauto.
      - eapply List.find_some; eauto. }
    change (Json.typeFields AccessToken_fields)
      with [Json.Field "AccessToken" (Some "access_token");
            Json.Field "Scope" (Some "scope");
            Json.Field "ExpiresAt" None] in Hin.
    simpl in Hin.
    destruct Hin as [<- | [<- | [<- | []]]]; unfold store_AccessToken in Hs; simpl in Hs.
    + destruct (Json.store_string v _); inversion Hs; subst; auto.
    + destruct (Json.store_string v _); inversion Hs; subst; auto.
    + destruct (store_time parse_rfc3339 v _); inversion Hs; subst; auto.
Qed.

Lemma unmarshal_AccessToken_ExpiresIn body t :
  unmarshal_AccessToken parse_rfc3339 body = Some t -> Token_ExpiresIn t = 0.
Proof.
  unfold unmarshal_AccessToken, Json.unmarshal_struct.
  destruct body as [| | v]; try discriminate.
  destruct v; try discriminate.
  - intros H; inversion H; reflexivity.
  - intros H. apply object_AccessToken_ExpiresIn in H. tauto.
Qed.

(** What the code caches after a fetch: the expiry is the reading of the
    clock taken after the response, whatever the response says. *)
Lemma authenticate_fetch_expiry w request w' request' :
  token (client w) = None ->
  clientSecret (client w) <> "" ->
  authenticate net clock parse_rfc3339 w request = (w', inr request') ->
  exists t, token (client w') = Some t
            /\ Token_ExpiresIn t = 0
            /\ Token_ExpiresAt t = clock (clock_reads w).
Proof.
  intros Htok Hsec. unfold authenticate.
  destruct (String.eqb (clientID (client w)) ""); [discriminate |].
  destruct (String.eqb_spec (clientSecret (client w)) ""); [contradiction |].
  unfold cached_token. rewrite Htok.
  destruct (doRequest net w (token_request (client w))) as [w2 r2] eqn:Hd.
  destruct (doRequest_sent _ _ _ _ _ Hd) as (_ & _ & Hreads).
  destruct r2 as [e | [status body]]; [discriminate |].
  destruct (negb (status =? 200)); [discriminate |].
  destruct (unmarshal_AccessToken parse_rfc3339 body) as [t |] eqn:Hu; [| discriminate].
  apply unmarshal_AccessToken_ExpiresIn in Hu.
  unfold now. intros H; inversion H; subst; simpl.
  eexists. split; [reflexivity |]. simpl. rewrite Hu, Hreads.
  split; [reflexivity |]. unfold Time.Add, wrap64. rewrite Z.mul_0_r.
  change ((0 + 2 ^ 63) mod 2 ^ 64 - 2 ^ 63) with 0. lia.
Qed.

End TokenCache.

(** C1 (the code departs from it).  The claim: a cached token is reused
    if and only if its expiry is strictly in the future, so the bearer
    token of a request is never one whose expiry is at or before the
    current time.  The code, at the clock reading 200: the token that
    expired at 100 is attached and nothing is fetched; the token that is
    valid until 300 is thrown away and a new one is fetched. *)
Theorem authenticate_reuses_expired_token :
  (let '(w, res) :=
     authenticate Scenario.net_down (Scenario.clock_at 200) Scenario.no_rfc3339
       (Scenario.with_token Scenario.expired_token) Scenario.get_users in
   res = inr (set_header Scenario.get_users "Authorization" "Bearer old")
   /\ sent w = []
   /\ Token_ExpiresAt Scenario.expired_token <= Scenario.clock_at 200 0)
  /\
  (let '(w, res) :=
     authenticate Scenario.net_up (Scenario.clock_at 200) Scenario.no_rfc3339
       (Scenario.with_token Scenario.valid_token) Scenario.get_users in
   res = inr (set_header Scenario.get_users "Authorization" "Bearer abc")
   /\ sent w = [token_request Scenario.c0]
   /\ Scenario.clock_at 200 0 < Token_ExpiresAt Scenario.valid_token).
Proof. vm_compute. repeat split; discriminate. Qed.

(** C2 (the code departs from it).  The claim: after a cache miss the
    cached expiry is the current time plus the [expires_in] of the
    response.  The code, for a response with [expires_in] 3600 read at
    clock 1000: [ExpiresIn] stays 0 and the cached [ExpiresAt] is 1000,
    the reading itself. *)
Theorem authenticate_ignores_expires_in :
  let '(w, _) :=
    authenticate Scenario.net_up Scenario.clock_from_1000 Scenario.no_rfc3339
      Scenario.w0 Scenario.get_users in
  token (client w) = Some (mkAccessToken "abc" "" 0 "" 1000)
  /\ Scenario.clock_from_1000 0 = 1000
  /\ Token_ExpiresAt (mkAccessToken "abc" "" 0 "" 1000)
     <> Scenario.clock_from_1000 0 + 3600 * Time.Second.
Proof. vm_compute. repeat split; discriminate. Qed.

(** ** The registry *)

Lemma set_streamWatchers_id c : set_streamWatchers c (streamWatchers c) = c.
Proof. destruct c; reflexivity. Qed.

(** The keys [WatchStream] and [WatchFollows] make determine the topic
    and the subject. *)
Lemma makeTopicKey_inj topic topic' userID userID' :
  topic = "streams" \/ topic = "follows" ->
  topic' = "streams" \/ topic' = "follows" ->
  makeTopicKey topic userID = makeTopicKey topic' userID' ->
  topic = topic' /\ userID = userID'.
Proof.
  intros [-> | ->] [-> | ->] H; unfold makeTopicKey in H; simpl in H;
    inversion H; subst; auto.
Qed.

(** A topic URL is never a key of a public topic. *)
Lemma makeTopicURL_not_key topic userID url userID' :
  makeTopicURL topic userID = inr url ->
  url <> makeTopicKey "streams" userID' /\ url <> makeTopicKey "follows" userID'.
Proof.
  unfold makeTopicURL.
  destruct (String.eqb topic "streams").
  { intros H; inversion H; subst. split; discriminate. }
  destruct (String.eqb topic "follows"); [| discriminate].
  intros H; inversion H; subst. split; discriminate.
Qed.

Definition public_key (k : string) : Prop :=
  exists userID, k = makeTopicKey "streams" userID \/ k = makeTopicKey "follows" userID.

(** What the [denied] branch does with the [hub.topic] of a subscription
    of this package: nothing, in a registry filled by [WatchStream] and
    [WatchFollows]. *)
Lemma denied_removes_nothing c r topic userID :
  (forall k, is_Some (streamWatchers c !! k) -> public_key k) ->
  Url.Get (wr_query r) "hub.mode" = "denied" ->
  makeTopicURL topic userID = inr (Url.Get (wr_query r) "hub.topic") ->
  WebhookHandler c r = (c, Responded StatusOK "").
Proof.
  intros Hkeys Hmode Hurl. unfold WebhookHandler. rewrite Hmode. simpl.
  unfold removeStreamWatcher.
  destruct (streamWatchers c !! Url.Get (wr_query r) "hub.topic") eqn:Hl; [| reflexivity].
  exfalso. destruct (Hkeys _ (mk_is_Some _ _ Hl)) as [u Hu].
  destruct (makeTopicURL_not_key _ _ _ u Hurl) as [H1 H2].
  destruct Hu; contradiction.
Qed.

Section Registry.

Variable net : nat -> HttpRequest -> NetResult.
Variable clock : nat -> Z.
Variable parse_rfc3339 : string -> option Z.

(** Run on its own, a failed [addStreamWatcher] leaves the registry as it
    found it. *)
Lemma addStreamWatcher_error_registry w topic userID w' e :
  addStreamWatcher net clock parse_rfc3339 w topic userID = (w', inl e) ->
  streamWatchers (client w') = streamWatchers (client w).
Proof.
  unfold addStreamWatcher, addStreamWatcher_locked.
  destruct (streamWatchers (client w) !! makeTopicKey topic userID) eqn:Hl.
  { simpl. intros H; inversion H; subst. reflexivity. }
  destruct (sub _ _ _ _ _) as [w2 [e' |]] eqn:Hs; simpl.
  2: { discriminate. }
  intros H; inversion H; subst. clear H.
  apply sub_frame in Hs. destruct Hs as [(_ & _ & _ & _ & _ & Hm & _) _].
  unfold topicKey in Hm. simpl in Hm. unfold removeStreamWatcher, topicKey. simpl.
  rewrite Hm, lookup_insert_eq. simpl.
  apply delete_insert_id. exact Hl.
Qed.

(** A successful [addStreamWatcher] registers the watcher it returns. *)
Lemma addStreamWatcher_ok_registry w topic userID w' sw :
  addStreamWatcher net clock parse_rfc3339 w topic userID = (w', inr sw) ->
  sw = newStreamWatcher topic userID
  /\ streamWatchers (client w) !! makeTopicKey topic userID = None
  /\ streamWatchers (client w')
     = <[makeTopicKey topic userID := sw]> (streamWatchers (client w)).
Proof.
  unfold addStreamWatcher, addStreamWatcher_locked.
  destruct (streamWatchers (client w) !! makeTopicKey topic userID) eqn:Hl.
  { simpl. discriminate. }
  destruct (sub _ _ _ _ _) as [w2 [e' |]] eqn:Hs; simpl; [discriminate |].
  intros H; inversion H; subst. clear H.
  apply sub_frame in Hs. destruct Hs as [(_ & _ & _ & _ & _ & Hm & _) _].
  simpl in Hm. auto.
Qed.

End Registry.

(** ** Inbound requests used below *)

Module Inbound.

(** The provider refuses the subscription to the stream of user 42:
    [?hub.mode=denied&hub.topic=<topic URL>&hub.reason=unauthorized]. *)
Definition denied_streams_42 : WebhookRequest :=
  mkWebhookRequest
    [("hub.mode", "denied");
     ("hub.topic", "https://api.twitch.tv/helix/streams?user_id=42");
     ("hub.reason", "unauthorized")]
    (Some Json.Empty).

(** A delivery [?topic=<topic>&user_id=42] with the given body. *)
Definition delivery (topic : string) (body : Json.value) : WebhookRequest :=
  mkWebhookRequest [("topic", topic); ("user_id", "42")] (Some (Json.Valid body)).

(** [{"data":[{"user_id":"42","viewer_count":10}]}]. *)
Definition stream_up : Json.value :=
  Json.Obj [("data", Json.Arr [Json.Obj [("user_id", Json.Str "42");
                                         ("viewer_count", Json.Int 10)]])].

Definition stream_42 : Stream := mkStream "" "42" "" [] "" "" 10 "" "" "".

(** [{"data":[]}] and [{"data":[null]}]. *)
Definition no_entries : Json.value := Json.Obj [("data", Json.Arr [])].
Definition null_entry : Json.value := Json.Obj [("data", Json.Arr [Json.Null])].

End Inbound.

(** The scenario of the specification: [WatchStream("42")] is accepted,
    the challenge [abc123] is echoed, and a delivery with
    [viewer_count] 10 is queued on the streams channel of the watcher. *)
Example subscribe_handshake_delivery :
  let '(w, res) :=
    WatchStream Scenario.net_up Scenario.clock_from_1000 Scenario.no_rfc3339
      Scenario.w0 "42" in
  let '(c1, resp1) :=
    WebhookHandler (client w)
      (mkWebhookRequest [("hub.mode", "subscribe"); ("hub.challenge", "abc123")]
         (Some Json.Empty)) in
  let '(c2, resp2) :=
    WebhookHandler c1 (Inbound.delivery "streams" Inbound.stream_up) in
  res = inr (newStreamWatcher "streams" "42")
  /\ resp1 = Responded StatusOK "abc123"
  /\ resp2 = Responded StatusOK ""
  /\ (chan_buf ∘ sw_streams) <$> lookupStreamWatcher c2 "streams" "42"
     = Some [Some Inbound.stream_42]
  /\ Stream_ViewerCount Inbound.stream_42 = 10.
Proof. vm_compute. repeat split. Qed.

(** C3 (the code departs from it).  The claim: a [denied] request removes
    the watcher its [hub.topic] identifies.  The code looks [hub.topic],
    a topic URL, up among keys of the form [topic/userID]: after
    [WatchStream("42")] succeeded, the [denied] request for the topic URL
    of that subscription is answered 200 and the watcher is still
    registered. *)
Theorem denied_keeps_the_watcher :
  let '(w, res) :=
    WatchStream Scenario.net_up Scenario.clock_from_1000 Scenario.no_rfc3339
      Scenario.w0 "42" in
  let '(c, resp) := WebhookHandler (client w) Inbound.denied_streams_42 in
  res = inr (newStreamWatcher "streams" "42")
  /\ makeTopicURL "streams" "42"
     = inr (Url.Get (wr_query Inbound.denied_streams_42) "hub.topic")
  /\ resp = Responded StatusOK ""
  /\ lookupStreamWatcher c "streams" "42" = Some (newStreamWatcher "streams" "42").
Proof. vm_compute. repeat split. Qed.

(** C4 (the code departs from it).  The claim: a watcher cannot be looked
    up before its subscribe call has succeeded.  The code releases the
    registry lock after the failed subscribe and only then removes the
    entry: with the network down, a delivery served between the two finds
    the watcher and queues an event on it, before [addStreamWatcher] has
    returned; the entry is gone once it has. *)
Theorem failed_add_is_observable :
  let s1 :=
    run Scenario.net_down Scenario.clock_from_1000 Scenario.no_rfc3339
      (mkSched Scenario.w0 None [] [])
      [StepAddLocked "streams" "42";
       StepWebhook (Inbound.delivery "streams" Inbound.stream_up)] in
  let s2 :=
    run Scenario.net_down Scenario.clock_from_1000 Scenario.no_rfc3339 s1
      [StepAddFinish] in
  pending s1
  = Some (AddFailed (newStreamWatcher "streams" "42") (ErrRequest ErrTransport))
  /\ returned s1 = []
  /\ responses s1 = [Responded StatusOK ""]
  /\ lookupStreamWatcher (client (world s1)) "streams" "42"
     = Some (set_streams (newStreamWatcher "streams" "42")
               (mkChan 5 [Some Inbound.stream_42] false))
  /\ returned s2 = [inl (ErrRequest ErrTransport)]
  /\ lookupStreamWatcher (client (world s2)) "streams" "42" = None.
Proof. vm_compute. repeat split. Qed.

(** C5.  While a watcher is registered under the key of a topic and a
    subject, [addStreamWatcher] for that topic and subject, the body of
    [WatchStream] and [WatchFollows], returns the already-subscribed error
    and leaves the client and its registry as they are; and the key of a
    public topic names one topic and one subject only, so the registry
    holds at most one watcher for each. *)
Theorem addStreamWatcher_already_subscribed
    (net : nat -> HttpRequest -> NetResult) (clock : nat -> Z)
    (parse_rfc3339 : string -> option Z) (w : World) (topic userID : string) :
  is_Some (lookupStreamWatcher (client w) topic userID) ->
  addStreamWatcher net clock parse_rfc3339 w topic userID
  = (w, inl ErrAlreadySubscribed)
  /\ forall topic' userID',
       topic = "streams" \/ topic = "follows" ->
       topic' = "streams" \/ topic' = "follows" ->
       makeTopicKey topic userID = makeTopicKey topic' userID' ->
       topic = topic' /\ userID = userID'.
Proof.
  intros [sw Hsw]. split.
  - unfold addStreamWatcher, addStreamWatcher_locked.
    unfold lookupStreamWatcher in Hsw. rewrite Hsw. reflexivity.
  - intros topic' userID'. apply makeTopicKey_inj.
Qed.

Lemma addStreamWatcher_already_subscribed_witness :
  let w1 :=
    fst (WatchStream Scenario.net_up Scenario.clock_from_1000 Scenario.no_rfc3339
           Scenario.w0 "42") in
  is_Some (lookupStreamWatcher (client w1) "streams" "42")
  /\ WatchStream Scenario.net_up Scenario.clock_from_1000 Scenario.no_rfc3339 w1 "42"
     = (w1, inl ErrAlreadySubscribed).
Proof.
  assert (H : is_Some (lookupStreamWatcher
            (client (fst (WatchStream Scenario.net_up Scenario.clock_from_1000
                            Scenario.no_rfc3339 Scenario.w0 "42")))
            "streams" "42")).
  { eexists. vm_compute. reflexivity. }
  split; [exact H |].
  exact (proj1 (addStreamWatcher_already_subscribed Scenario.net_up
                  Scenario.clock_from_1000 Scenario.no_rfc3339 _ "streams" "42" H)).
Defined.

(** ** The delivery path *)

(** The request is a delivery: [hub.mode] is none of the handshake modes. *)
Definition delivery_mode (r : WebhookRequest) : Prop :=
  Url.Get (wr_query r) "hub.mode" <> "subscribe"
  /\ Url.Get (wr_query r) "hub.mode" <> "unsubscribe"
  /\ Url.Get (wr_query r) "hub.mode" <> "denied".

Lemma delivery_mode_deliver c r :
  delivery_mode r -> WebhookHandler c r = deliver c r.
Proof.
  intros (H1 & H2 & H3). unfold WebhookHandler.
  destruct (String.eqb_spec (Url.Get (wr_query r) "hub.mode") "subscribe"); [contradiction |].
  destruct (String.eqb_spec (Url.Get (wr_query r) "hub.mode") "unsubscribe"); [contradiction |].
  destruct (String.eqb_spec (Url.Get (wr_query r) "hub.mode") "denied"); [contradiction |].
  reflexivity.
Qed.

(** A buffer with no room left. *)
Definition full {T : Type} (ch : chan T) : Prop :=
  (chan_cap ch <= length (chan_buf ch))%nat.

Lemma try_send_full {T : Type} (ch : chan T) (v : T) :
  full ch -> fst (try_send ch v) = ch /\ snd (try_send ch v) <> Sent.
Proof.
  unfold full, try_send. intros H.
  destruct (chan_closed ch); [split; [reflexivity | discriminate] |].
  destruct (Nat.ltb_spec (length (chan_buf ch)) (chan_cap ch)); [lia |].
  split; [reflexivity | discriminate].
Qed.

Lemma try_send_open {T : Type} (ch : chan T) (v : T) :
  chan_closed ch = false ->
  try_send ch v
  = if (length (chan_buf ch) <? chan_cap ch)%nat
    then (mkChan (chan_cap ch) (chan_buf ch ++ [v]) false, Sent)
    else (ch, Dropped).
Proof. unfold try_send. intros ->. reflexivity. Qed.

Lemma send_streams_full streams : forall ch,
  full ch -> fst (send_streams ch streams) = ch.
Proof.
  induction streams as [| s rest IH]; intros ch Hfull; simpl; [reflexivity |].
  destruct (try_send_full ch s Hfull) as [H1 H2].
  destruct (try_send ch s) as [ch' res]. simpl in H1, H2. subst ch'.
  destruct res; [contradiction | apply IH; exact Hfull | reflexivity].
Qed.

Lemma send_follows_full follows : forall ch,
  full ch -> fst (send_follows ch follows) = ch.
Proof.
  induction follows as [| [f |] rest IH]; intros ch Hfull; simpl; try reflexivity.
  destruct (try_send_full ch (Some f) Hfull) as [H1 H2].
  destruct (try_send ch (Some f)) as [ch' res]. simpl in H1, H2. subst ch'.
  destruct res; [contradiction | apply IH; exact Hfull | reflexivity].
Qed.

Lemma set_streams_id sw : set_streams sw (sw_streams sw) = sw.
Proof. destruct sw; reflexivity. Qed.

Lemma set_follows_id sw : set_follows sw (sw_follows sw) = sw.
Proof. destruct sw; reflexivity. Qed.

Lemma registry_put_back c key sw :
  streamWatchers c !! key = Some sw ->
  set_streamWatchers c (<[key := sw]> (streamWatchers c)) = c.
Proof. intros H. rewrite insert_id by exact H. apply set_streamWatchers_id. Qed.

(** Whenever the handler answers, it answers 200. *)
Lemma WebhookHandler_status c r c' status body :
  WebhookHandler c r = (c', Responded status body) -> status = StatusOK.
Proof.
  unfold WebhookHandler, deliver, finish.
  repeat break_match; intros H; inversion H; subst; reflexivity.
Qed.

(** The failures the delivery branch checks for are answered 200 and
    change nothing. *)
Lemma delivery_failures c r :
  delivery_mode r ->
  Url.Get (wr_query r) "topic" = ""
  \/ Url.Get (wr_query r) "user_id" = ""
  \/ lookupStreamWatcher c (Url.Get (wr_query r) "topic") (Url.Get (wr_query r) "user_id")
     = None
  \/ wr_body r = None
  \/ (exists body, wr_body r = Some body /\ marshalResponse body = None)
  \/ (exists body response, wr_body r = Some body
        /\ marshalResponse body = Some response
        /\ ((Url.Get (wr_query r) "topic" = "streams"
             /\ unmarshal_Streams (Data response) = None)
            \/ (Url.Get (wr_query r) "topic" = "follows"
                /\ unmarshal_Follows (Data response) = None)
            \/ (Url.Get (wr_query r) "topic" <> "streams"
                /\ Url.Get (wr_query r) "topic" <> "follows"))) ->
  WebhookHandler c r = (c, Responded StatusOK "").
Proof.
  intros Hmode Hcase. rewrite (delivery_mode_deliver c r Hmode).
  unfold deliver, lookupStreamWatcher in *.
  destruct (String.eqb_spec (Url.Get (wr_query r) "topic") ""); [reflexivity |].
  destruct (String.eqb_spec (Url.Get (wr_query r) "user_id") ""); [reflexivity |].
  simpl.
  destruct (streamWatchers c !! _) as [sw |]; [| reflexivity].
  destruct (wr_body r) as [body |]; [| reflexivity].
  destruct (marshalResponse body) as [response |] eqn:Hm; [| reflexivity].
  destruct Hcase as [H | [H | [H | [H | [H | H]]]]]; try congruence.
  { destruct H as (b & Hb & Hn). inversion Hb; subst. congruence. }
  destruct H as (b & resp & Hb & Hr & Hc). inversion Hb; subst.
  rewrite Hm in Hr. inversion Hr; subst.
  destruct Hc as [[Ht Hu] | [[Ht Hu] | [Hs Hf]]].
  - rewrite Ht. simpl. rewrite Hu. reflexivity.
  - rewrite Ht. simpl. rewrite Hu. reflexivity.
  - destruct (String.eqb_spec (Url.Get (wr_query r) "topic") "streams"); [contradiction |].
    destruct (String.eqb_spec (Url.Get (wr_query r) "topic") "follows"); [contradiction |].
    reflexivity.
Qed.

(** C6 (the code departs from it).  The claim: every request on the
    delivery path is answered 200.  The code, for a follows delivery with
    the body [{"data":[null]}] to a registered watcher: the payload
    decodes to one nil entry, and [follow.FromID] in the loop is a nil
    dereference; the handler panics and writes no status. *)
Theorem delivery_of_null_follow_panics :
  let '(w, res) :=
    WatchFollows Scenario.net_up Scenario.clock_from_1000 Scenario.no_rfc3339
      Scenario.w0 "42" in
  let r := Inbound.delivery "follows" Inbound.null_entry in
  res = inr (newStreamWatcher "follows" "42")
  /\ Url.Get (wr_query r) "hub.mode" = ""
  /\ unmarshal_Follows (Some (Json.Arr [Json.Null])) = Some [None]
  /\ snd (WebhookHandler (client w) r) = Panicked.
Proof. vm_compute. repeat split. Qed.

(** The buffer a delivery for [topic] sends into has no room. *)
Definition target_full (topic : string) (sw : StreamWatcher) : Prop :=
  (topic = "streams" -> full (sw_streams sw))
  /\ (topic = "follows" -> full (sw_follows sw)).

(** C7.  The channels of a watcher are made with capacity 5; a send of
    the handler is the [select] with a [default], which returns in every
    case; on a full buffer the send leaves the channel as it is and the
    event is not queued; and a delivery whose target buffer is full
    leaves the whole registry, that buffer included, unchanged. *)
Theorem delivery_drops_when_full (c : TwitchClient) (r : WebhookRequest)
    (sw : StreamWatcher) :
  delivery_mode r ->
  lookupStreamWatcher c (Url.Get (wr_query r) "topic") (Url.Get (wr_query r) "user_id")
  = Some sw ->
  target_full (Url.Get (wr_query r) "topic") sw ->
  fst (WebhookHandler c r) = c
  /\ (forall (T : Type) (ch : chan T) (v : T),
        full ch -> fst (try_send ch v) = ch /\ snd (try_send ch v) <> Sent)
  /\ (forall topic userID,
        chan_cap (sw_streams (newStreamWatcher topic userID)) = 5%nat
        /\ chan_cap (sw_follows (newStreamWatcher topic userID)) = 5%nat).
Proof.
  intros Hmode Hsw [Hs Hf].
  split; [| split].
  - rewrite (delivery_mode_deliver c r Hmode).
    unfold deliver. unfold lookupStreamWatcher in Hsw.
    destruct (_ || _); [reflexivity |].
    rewrite Hsw.
    destruct (wr_body r) as [body |]; [| reflexivity].
    destruct (marshalResponse body) as [response |]; [| reflexivity].
    destruct (String.eqb_spec (Url.Get (wr_query r) "topic") "streams") as [Ht | Ht].
    + specialize (Hs Ht).
      destruct (unmarshal_Streams (Data response)) as [[| s rest] |]; try reflexivity.
      * destruct (try_send_full (sw_streams sw) None Hs) as [H1 _].
        destruct (try_send (sw_streams sw) None) as [ch res]. simpl in H1. subst ch.
        simpl. rewrite set_streams_id. apply registry_put_back. exact Hsw.
      * pose proof (send_streams_full (s :: rest) _ Hs) as H1.
        destruct (send_streams (sw_streams sw) (s :: rest)) as [ch ok].
        simpl in H1. subst ch.
        simpl. rewrite set_streams_id. apply registry_put_back. exact Hsw.
    + destruct (String.eqb_spec (Url.Get (wr_query r) "topic") "follows") as [Ht' | Ht'];
        [| reflexivity].
      specialize (Hf Ht').
      destruct (unmarshal_Follows (Data response)) as [[| s rest] |]; try reflexivity.
      pose proof (send_follows_full (s :: rest) _ Hf) as H1.
      destruct (send_follows (sw_follows sw) (s :: rest)) as [ch ok].
      simpl in H1. subst ch.
      simpl. rewrite set_follows_id. apply registry_put_back. exact Hsw.
  - intros T ch v. apply try_send_full.
  - intros topic userID. split; reflexivity.
Qed.

(** A client whose only watcher, for the stream of user 42, has five
    offline signals queued. *)
Definition client_with_full_buffer : TwitchClient :=
  set_streamWatchers Scenario.c0
    {[ "streams/42" :=
         set_streams (newStreamWatcher "streams" "42")
           (mkChan 5 [None; None; None; None; None] false) ]}.

Lemma delivery_drops_when_full_witness :
  fst (WebhookHandler client_with_full_buffer
         (Inbound.delivery "streams" Inbound.stream_up))
  = client_with_full_buffer.
Proof.
  refine (proj1 (delivery_drops_when_full client_with_full_buffer
                   (Inbound.delivery "streams" Inbound.stream_up)
                   (set_streams (newStreamWatcher "streams" "42")
                      (mkChan 5 [None; None; None; None; None] false)) _ _ _)).
  - repeat split; discriminate.
  - vm_compute. reflexivity.
  - split; intros H; [unfold full; simpl; lia | discriminate H].
Defined.


(** The same delivery for a watcher whose streams channel [Close] has
    closed already (webhooks.go:259, before the entry leaves the
    registry): the send panics. *)
Lemma empty_streams_delivery_after_close (c : TwitchClient)
    (r : WebhookRequest) (sw : StreamWatcher) (body : Json.text)
    (response : Response) :
  delivery_mode r ->
  Url.Get (wr_query r) "topic" = "streams" ->
  Url.Get (wr_query r) "user_id" <> "" ->
  lookupStreamWatcher c "streams" (Url.Get (wr_query r) "user_id") = Some sw ->
  wr_body r = Some body ->
  marshalResponse body = Some response ->
  unmarshal_Streams (Data response) = Some [] ->
  chan_closed (sw_streams sw) = true ->
  WebhookHandler c r = (c, Panicked).
Proof.
  intros Hmode Ht Hu Hsw Hb Hm Hd Hclosed.
  rewrite (delivery_mode_deliver c r Hmode).
  unfold deliver. unfold lookupStreamWatcher in Hsw. rewrite Ht.
  destruct (String.eqb_spec (Url.Get (wr_query r) "user_id") ""); [contradiction |].
  simpl. rewrite Hsw, Hb, Hm, Hd. unfold try_send. rewrite Hclosed. simpl.
  rewrite set_streams_id, (registry_put_back _ _ _ Hsw). reflexivity.
Qed.

(** A client whose only watcher, for the stream of user 42, is fresh. *)
Definition client_with_watcher : TwitchClient :=
  set_streamWatchers Scenario.c0
    {[ "streams/42" := newStreamWatcher "streams" "42" ]}.


(** C10.  A follows delivery that decodes to zero entries sends nothing:
    the client, and with it both channels of every registered watcher, is
    as before, and the answer is 200. *)
Theorem empty_follows_delivery_is_noop (c : TwitchClient) (r : WebhookRequest)
    (body : Json.text) (response : Response) :
  delivery_mode r ->
  Url.Get (wr_query r) "topic" = "follows" ->
  wr_body r = Some body ->
  marshalResponse body = Some response ->
  unmarshal_Follows (Data response) = Some [] ->
  WebhookHandler c r = (c, Responded StatusOK "")
  /\ forall sw,
       lookupStreamWatcher c "follows" (Url.Get (wr_query r) "user_id") = Some sw ->
       lookupStreamWatcher (fst (WebhookHandler c r)) "follows"
         (Url.Get (wr_query r) "user_id") = Some sw.
Proof.
  intros Hmode Ht Hb Hm Hd.
  assert (Heq : WebhookHandler c r = (c, Responded StatusOK "")).
  { rewrite (delivery_mode_deliver c r Hmode).
    unfold deliver. rewrite Ht.
    destruct (_ || _); [reflexivity |].
    destruct (streamWatchers c !! _); [| reflexivity].
    rewrite Hb, Hm. simpl. rewrite Hd. reflexivity. }
  split; [exact Heq |]. rewrite Heq. auto.
Qed.

(** A client whose only watcher, for the follows of user 42, is fresh. *)
Definition client_with_follows_watcher : TwitchClient :=
  set_streamWatchers Scenario.c0
    {[ "follows/42" := newStreamWatcher "follows" "42" ]}.

Lemma empty_follows_delivery_is_noop_witness :
  WebhookHandler client_with_follows_watcher
    (Inbound.delivery "follows" Inbound.no_entries)
  = (client_with_follows_watcher, Responded StatusOK "").
Proof.
  refine (proj1 (empty_follows_delivery_is_noop client_with_follows_watcher
                   (Inbound.delivery "follows" Inbound.no_entries)
                   (Json.Valid Inbound.no_entries)
                   (mkResponse (Some (Json.Arr []))) _ _ _ _ _)).
  - repeat split; discriminate.
  - reflexivity.
  - reflexivity.
  - reflexivity.
  - reflexivity.
Defined.

(** ** The renewal loop *)

(** The fields [NewTwitchClient] sets and nothing writes afterwards. *)
Definition same_settings (c c' : TwitchClient) : Prop :=
  endpoint c' = endpoint c /\ clientID c' = clientID c
  /\ clientSecret c' = clientSecret c /\ callbackURL c' = callbackURL c
  /\ callbackSecret c' = callbackSecret c.

Lemma same_config_settings c c' : same_config c c' -> same_settings c c'.
Proof. unfold same_config, same_settings. tauto. Qed.

Lemma same_settings_trans c1 c2 c3 :
  same_settings c1 c2 -> same_settings c2 c3 -> same_settings c1 c3.
Proof. unfold same_settings. intuition congruence. Qed.






Section Renewal.

Variable net : nat -> HttpRequest -> NetResult.
Variable clock : nat -> Z.
Variable parse_rfc3339 : string -> option Z.



End Renewal.



(** * The rest of the package *)

(** ** [net/url]: reading a query back *)

Module UrlParse.

Definition ishex (a : ascii) : bool :=
  let n := N_of_ascii a in
  ((48 <=? n) && (n <=? 57))%N || ((97 <=? n) && (n <=? 102))%N
  || ((65 <=? n) && (n <=? 70))%N.

Definition unhex (a : ascii) : N :=
  let n := N_of_ascii a in
  if ((48 <=? n) && (n <=? 57))%N then n - 48
  else if ((97 <=? n) && (n <=? 102))%N then n - 97 + 10
  else if ((65 <=? n) && (n <=? 70))%N then n - 65 + 10
  else 0.

(** [url.QueryUnescape]: [%XX] is the byte [XX], [+] is a space; a [%]
    that two hexadecimal digits do not follow is an error. *)
Fixpoint QueryUnescape (s : string) : option string :=
  match s with
  | EmptyString => Some EmptyString
  | String a r =>
      if Ascii.eqb a "%" then
        match r with
        | String h1 (String h2 r') =>
            if ishex h1 && ishex h2
            then String (ascii_of_N (unhex h1 * 16 + unhex h2)) <$> QueryUnescape r'
            else None
        | _ => None
        end
      else if Ascii.eqb a "+" then String " "%char <$> QueryUnescape r
      else String a <$> QueryUnescape r
  end.

(** [strings.Split(s, sep)] for a separator of one byte. *)
Fixpoint split (sep : ascii) (s : string) : list string :=
  match s with
  | EmptyString => [EmptyString]
  | String a r =>
      if Ascii.eqb a sep then EmptyString :: split sep r
      else
        match split sep r with
        | piece :: pieces => String a piece :: pieces
        | [] => [String a EmptyString]
        end
  end.

(** [strings.Cut(s, sep)]: what is before the first [sep], and what is
    after it when there is one. *)
Fixpoint cut (sep : ascii) (s : string) : string * option string :=
  match s with
  | EmptyString => (EmptyString, None)
  | String a r =>
      if Ascii.eqb a sep then (EmptyString, Some r)
      else let (before, after) := cut sep r in (String a before, after)
  end.

Fixpoint contains (c : ascii) (s : string) : bool :=
  match s with
  | EmptyString => false
  | String a r => Ascii.eqb a c || contains c r
  end.

(** One [key=value] piece of [parseQuery]: a piece with a semicolon, an
    empty piece and a piece with a bad escape are passed over. *)
Definition parse_pair (piece : string) : option (string * string) :=
  if contains ";" piece then None
  else if String.eqb piece "" then None
  else
    let (key, value) := cut "=" piece in
    match QueryUnescape key with
    | None => None
    | Some k =>
        match QueryUnescape (default "" value) with
        | None => None
        | Some v => Some (k, v)
        end
    end.

(** [u.Query()]: [ParseQuery(u.RawQuery)] with its error dropped.  The
    loop of [parseQuery] cuts the query at each [&]; the pairs are kept
    in the order of the query, so that [Url.Get] is [Values.Get]. *)
Definition Query (rawQuery : string) : Url.Query :=
  omap parse_pair (split "&" rawQuery).

(** [url.Parse(rawURL).RawQuery]: the fragment after [#] is cut off, the
    query is what follows the first [?]. *)
Definition RawQuery (rawURL : string) : string :=
  let (rest, _) := cut "#" rawURL in
  default "" (snd (cut "?" rest)).

End UrlParse.

Example Query_of_callback :
  UrlParse.Query (UrlParse.RawQuery "http://cb/hook?topic=streams&user_id=a+b%2F")
  = [("topic", "streams"); ("user_id", "a b/")].
Proof. reflexivity. Qed.

Example Query_skips_bad_pairs :
  UrlParse.Query "a=1&&b=%zz&c;d=2&e" = [("a", "1"); ("e", "")].
Proof. reflexivity. Qed.

(** *** Escaping and unescaping *)

Ltac each_byte a := destruct a as [[] [] [] [] [] [] [] []].

Lemma QueryUnescape_step a r :
  UrlParse.QueryUnescape (Url.QueryEscape (String a r))
  = String a <$> UrlParse.QueryUnescape (Url.QueryEscape r).
Proof. each_byte a; reflexivity. Qed.

Lemma QueryUnescape_QueryEscape s :
  UrlParse.QueryUnescape (Url.QueryEscape s) = Some s.
Proof.
  induction s as [| a s IH]; [reflexivity |].
  rewrite QueryUnescape_step, IH. reflexivity.
Qed.

(** An escaped string holds none of the separators of a URL. *)
Definition separator (c : ascii) : Prop :=
  c = "&"%char \/ c = "="%char \/ c = ";"%char \/ c = "#"%char \/ c = "?"%char.

Lemma QueryEscape_separator_step c a r :
  separator c ->
  UrlParse.contains c (Url.QueryEscape (String a r))
  = UrlParse.contains c (Url.QueryEscape r).
Proof.
  intros [-> | [-> | [-> | [-> | ->]]]]; each_byte a; reflexivity.
Qed.

Lemma QueryEscape_separator c s :
  separator c -> UrlParse.contains c (Url.QueryEscape s) = false.
Proof.
  intros Hc. induction s as [| a s IH]; [reflexivity |].
  rewrite QueryEscape_separator_step by exact Hc. exact IH.
Qed.

Lemma contains_app c s1 s2 :
  UrlParse.contains c (s1 +:+ s2) = UrlParse.contains c s1 || UrlParse.contains c s2.
Proof.
  induction s1 as [| a s1 IH]; simpl; [reflexivity |].
  rewrite IH. apply orb_assoc.
Qed.

Lemma cut_absent c s :
  UrlParse.contains c s = false -> UrlParse.cut c s = (s, None).
Proof.
  induction s as [| a s IH]; simpl; [reflexivity |].
  destruct (Ascii.eqb a c); simpl; [discriminate |].
  intros H. rewrite (IH H). reflexivity.
Qed.

Lemma cut_first c s1 s2 :
  UrlParse.contains c s1 = false ->
  UrlParse.cut c (s1 +:+ String c s2) = (s1, Some s2).
Proof.
  induction s1 as [| a s1 IH]; simpl.
  - intros _. rewrite Ascii.eqb_refl. reflexivity.
  - destruct (Ascii.eqb a c); simpl; [discriminate |].
    intros H. rewrite (IH H). reflexivity.
Qed.

Lemma split_absent c s :
  UrlParse.contains c s = false -> UrlParse.split c s = [s].
Proof.
  induction s as [| a s IH]; simpl; [reflexivity |].
  destruct (Ascii.eqb a c); simpl; [discriminate |].
  intros H. rewrite (IH H). reflexivity.
Qed.

Lemma split_first c s1 s2 :
  UrlParse.contains c s1 = false ->
  UrlParse.split c (s1 +:+ String c s2) = s1 :: UrlParse.split c s2.
Proof.
  induction s1 as [| a s1 IH]; simpl.
  - intros _. rewrite Ascii.eqb_refl. reflexivity.
  - destruct (Ascii.eqb a c); simpl; [discriminate |].
    intros H. rewrite (IH H). reflexivity.
Qed.

(** One pair as [Values.Encode] writes it. *)
Definition encode_pair (kv : string * string) : string :=
  Url.QueryEscape (fst kv) +:+ "=" +:+ Url.QueryEscape (snd kv).

Lemma encode_pair_separator c kv :
  c = "&"%char \/ c = ";"%char \/ c = "#"%char ->
  UrlParse.contains c (encode_pair kv) = false.
Proof.
  intros Hc. unfold encode_pair. rewrite !contains_app.
  rewrite !QueryEscape_separator by (unfold separator; tauto).
  destruct Hc as [-> | [-> | ->]]; reflexivity.
Qed.

Lemma parse_pair_encode_pair kv : UrlParse.parse_pair (encode_pair kv) = Some kv.
Proof.
  unfold UrlParse.parse_pair.
  rewrite encode_pair_separator by tauto.
  destruct (String.eqb_spec (encode_pair kv) "") as [He | _].
  { exfalso. apply (f_equal (UrlParse.contains "=")) in He.
    unfold encode_pair in He. rewrite !contains_app in He. simpl in He.
    rewrite orb_true_r in He. discriminate. }
  unfold encode_pair. change ("=" +:+ ?x) with (String "=" x).
  rewrite cut_first by (apply QueryEscape_separator; unfold separator; tauto).
  simpl. rewrite !QueryUnescape_QueryEscape. destruct kv; reflexivity.
Qed.

Lemma join_amp_separator c l :
  c = ";"%char \/ c = "#"%char ->
  UrlParse.contains c (Url.join_amp (map encode_pair l)) = false.
Proof.
  intros Hc. induction l as [| kv [| kv' l] IH].
  - reflexivity.
  - simpl. apply encode_pair_separator. tauto.
  - change (Url.join_amp (map encode_pair (kv :: kv' :: l)))
      with (encode_pair kv +:+ "&" +:+ Url.join_amp (map encode_pair (kv' :: l))).
    rewrite !contains_app, IH, encode_pair_separator by tauto.
    destruct Hc as [-> | ->]; reflexivity.
Qed.

Lemma omap_cons_Some {A B : Type} (f : A -> option B) x y l :
  f x = Some y -> omap f (x :: l) = y :: omap f l.
Proof. intros H. simpl. rewrite H. reflexivity. Qed.

Lemma Query_join_amp l :
  UrlParse.Query (Url.join_amp (map encode_pair l)) = l.
Proof.
  unfold UrlParse.Query. induction l as [| kv [| kv' l] IH].
  - reflexivity.
  - simpl. rewrite split_absent by (apply encode_pair_separator; tauto).
    simpl. rewrite parse_pair_encode_pair. reflexivity.
  - change (Url.join_amp (map encode_pair (kv :: kv' :: l)))
      with (encode_pair kv +:+ String "&" (Url.join_amp (map encode_pair (kv' :: l)))).
    rewrite split_first by (apply encode_pair_separator; tauto).
    rewrite (omap_cons_Some _ _ _ _ (parse_pair_encode_pair kv)).
    rewrite IH. reflexivity.
Qed.

(** The pairs of [Values], keys in sorted order. *)
Definition pairs (v : Url.Values) : list (string * string) :=
  concat (map (fun kv => map (pair (fst kv)) (snd kv)) (Url.sort_keys v)).

Lemma Encode_pairs v : Url.Encode v = Url.join_amp (map encode_pair (pairs v)).
Proof.
  unfold Url.Encode, pairs. f_equal.
  induction (Url.sort_keys v) as [| [k vs] l IH]; [reflexivity |].
  simpl. rewrite map_app, IH. f_equal.
  unfold Url.encode_key. rewrite map_map. reflexivity.
Qed.

(** ** The lookups (the API file: [User], [Game], [getUser], [getGame],
    [getStream] and their callers) *)

Record User : Type := mkUser {
  User_ID : string;
  User_Login : string;
  User_DisplayName : string;
  User_Type : string;
  User_BroadcasterType : string;
  User_Description : string;
  User_ProfileImageURL : string;
  User_OfflineImageURL : string;
  User_ViewCount : Z;
  User_Email : string
}.

Definition User_fields : list Json.field :=
  [ Json.Field "ID" (Some "id");
    Json.Field "Login" (Some "login");
    Json.Field "DisplayName" (Some "display_name");
    Json.Field "Type" (Some "type");
    Json.Field "BroadcasterType" (Some "broadcaster_type");
    Json.Field "Description" (Some "description");
    Json.Field "ProfileImageURL" (Some "profile_image_url");
    Json.Field "OfflineImageURL" (Some "offline_image_url");
    Json.Field "ViewCount" (Some "view_count");
    Json.Field "Email" (Some "email") ].

Definition User_zero : User := mkUser "" "" "" "" "" "" "" "" 0 "".

Definition store_User (f : Json.field) (v : Json.value) (u : User) : option User :=
  let n := Json.go_name f in
  let str (get : User -> string) (set : string -> User) : option User :=
    x ← Json.store_string v (get u); Some (set x) in
  if String.eqb n "ID" then
    str User_ID (fun x => mkUser x (User_Login u) (User_DisplayName u) (User_Type u)
      (User_BroadcasterType u) (User_Description u) (User_ProfileImageURL u)
      (User_OfflineImageURL u) (User_ViewCount u) (User_Email u))
  else if String.eqb n "Login" then
    str User_Login (fun x => mkUser (User_ID u) x (User_DisplayName u) (User_Type u)
      (User_BroadcasterType u) (User_Description u) (User_ProfileImageURL u)
      (User_OfflineImageURL u) (User_ViewCount u) (User_Email u))
  else if String.eqb n "DisplayName" then
    str User_DisplayName (fun x => mkUser (User_ID u) (User_Login u) x (User_Type u)
      (User_BroadcasterType u) (User_Description u) (User_ProfileImageURL u)
      (User_OfflineImageURL u) (User_ViewCount u) (User_Email u))
  else if String.eqb n "Type" then
    str User_Type (fun x => mkUser (User_ID u) (User_Login u) (User_DisplayName u) x
      (User_BroadcasterType u) (User_Description u) (User_ProfileImageURL u)
      (User_OfflineImageURL u) (User_ViewCount u) (User_Email u))
  else if String.eqb n "BroadcasterType" then
    str User_BroadcasterType (fun x => mkUser (User_ID u) (User_Login u)
      (User_DisplayName u) (User_Type u) x (User_Description u)
      (User_ProfileImageURL u) (User_OfflineImageURL u) (User_ViewCount u) (User_Email u))
  else if String.eqb n "Description" then
    str User_Description (fun x => mkUser (User_ID u) (User_Login u)
      (User_DisplayName u) (User_Type u) (User_BroadcasterType u) x
      (User_ProfileImageURL u) (User_OfflineImageURL u) (User_ViewCount u) (User_Email u))
  else if String.eqb n "ProfileImageURL" then
    str User_ProfileImageURL (fun x => mkUser (User_ID u) (User_Login u)
      (User_DisplayName u) (User_Type u) (User_BroadcasterType u) (User_Description u)
      x (User_OfflineImageURL u) (User_ViewCount u) (User_Email u))
  else if String.eqb n "OfflineImageURL" then
    str User_OfflineImageURL (fun x => mkUser (User_ID u) (User_Login u)
      (User_DisplayName u) (User_Type u) (User_BroadcasterType u) (User_Description u)
      (User_ProfileImageURL u) x (User_ViewCount u) (User_Email u))
  else if String.eqb n "ViewCount" then
    k ← Json.store_int v (User_ViewCount u);
    Some (mkUser (User_ID u) (User_Login u) (User_DisplayName u) (User_Type u)
      (User_BroadcasterType u) (User_Description u) (User_ProfileImageURL u)
      (User_OfflineImageURL u) k (User_Email u))
  else if String.eqb n "Email" then
    str User_Email (fun x => mkUser (User_ID u) (User_Login u) (User_DisplayName u)
      (User_Type u) (User_BroadcasterType u) (User_Description u)
      (User_ProfileImageURL u) (User_OfflineImageURL u) (User_ViewCount u) x)
  else Some u.

Record Game : Type := mkGame {
  Game_ID : string;
  Game_Name : string;
  Game_BoxArtURL : string
}.

Definition Game_fields : list Json.field :=
  [ Json.Field "ID" (Some "id");
    Json.Field "Name" (Some "name");
    Json.Field "BoxArtURL" (Some "box_art_url") ].

Definition Game_zero : Game := mkGame "" "" "".

Definition store_Game (f : Json.field) (v : Json.value) (g : Game) : option Game :=
  let n := Json.go_name f in
  if String.eqb n "ID" then
    s ← Json.store_string v (Game_ID g);
    Some (mkGame s (Game_Name g) (Game_BoxArtURL g))
  else if String.eqb n "Name" then
    s ← Json.store_string v (Game_Name g);
    Some (mkGame (Game_ID g) s (Game_BoxArtURL g))
  else if String.eqb n "BoxArtURL" then
    s ← Json.store_string v (Game_BoxArtURL g);
    Some (mkGame (Game_ID g) (Game_Name g) s)
  else Some g.

(** [u := []*User{}; json.Unmarshal(body, &u)], and the same for games. *)
Definition unmarshal_Users (d : option Json.value) : option (list (option User)) :=
  Json.unmarshal_ptrs (Json.typeFields User_fields) store_User User_zero (raw_text d).

Definition unmarshal_Games (d : option Json.value) : option (list (option Game)) :=
  Json.unmarshal_ptrs (Json.typeFields Game_fields) store_Game Game_zero (raw_text d).

(** The errors of a lookup. *)
Inductive lookup_error : Type :=
| LookupRequest (cause : error)     (* "error making request" *)
| LookupStatus (code : Z)           (* "unexpected status code: %d" *)
| LookupParse                       (* "failed to parse response" *)
| ErrNotFound
| ErrMultipleResults.

(** The end of the three lookups: no entry, one entry (which is returned
    as it is, a nil pointer included), several entries. *)
Definition one_result {T : Type} (l : list (option T)) : lookup_error + option T :=
  match l with
  | [] => inl ErrNotFound
  | [x] => inr x
  | _ => inl ErrMultipleResults
  end.

Section Lookups.

Variable net : nat -> HttpRequest -> NetResult.
Variable clock : nat -> Z.
Variable parse_rfc3339 : string -> option Z.

(** The API file, lines 68-93. *)
Definition getUser (w : World) (k v : string) : World * (lookup_error + option User) :=
  match Request net clock parse_rfc3339 w "GET" "users" (Some [(k, [v])]) None with
  | (w1, inl e) => (w1, inl (LookupRequest e))
  | (w1, inr (status, body)) =>
      if negb (status =? StatusOK) then (w1, inl (LookupStatus status))
      else
        match unmarshal_Users body with
        | None => (w1, inl LookupParse)
        | Some u => (w1, one_result u)
        end
  end.

Definition GetUserByName (w : World) (name : string) := getUser w "login" name.
Definition GetUserByID (w : World) (id : string) := getUser w "id" id.

(** Lines 103-128. *)
Definition getGame (w : World) (k v : string) : World * (lookup_error + option Game) :=
  match Request net clock parse_rfc3339 w "GET" "games" (Some [(k, [v])]) None with
  | (w1, inl e) => (w1, inl (LookupRequest e))
  | (w1, inr (status, body)) =>
      if negb (status =? StatusOK) then (w1, inl (LookupStatus status))
      else
        match unmarshal_Games body with
        | None => (w1, inl LookupParse)
        | Some u => (w1, one_result u)
        end
  end.

Definition GetGameByName (w : World) (name : string) := getGame w "name" name.
Definition GetGameByID (w : World) (id : string) := getGame w "id" id.

(** Lines 138-163. *)
Definition getStream (w : World) (k v : string) : World * (lookup_error + option Stream) :=
  match Request net clock parse_rfc3339 w "GET" "streams" (Some [(k, [v])]) None with
  | (w1, inl e) => (w1, inl (LookupRequest e))
  | (w1, inr (status, body)) =>
      if negb (status =? StatusOK) then (w1, inl (LookupStatus status))
      else
        match unmarshal_Streams body with
        | None => (w1, inl LookupParse)
        | Some u => (w1, one_result u)
        end
  end.

Definition GetStreamByUserName (w : World) (name : string) := getStream w "user_login" name.
Definition GetStreamByUserID (w : World) (id : string) := getStream w "user_id" id.

End Lookups.

(** ** [makeSecret] (utils.go) and the constructor *)

Definition hexdigit (n : N) : ascii :=
  match String.get (N.to_nat n) "0123456789abcdef" with
  | Some a => a
  | None => "0"%char
  end.

(** [hex.EncodeToString]: two lower-case digits a byte. *)
Fixpoint hex_EncodeToString (bytes : list N) : string :=
  match bytes with
  | [] => EmptyString
  | b :: rest =>
      String (hexdigit (b / 16)) (String (hexdigit (b mod 16)) (hex_EncodeToString rest))
  end.

Inductive secret_error : Type := ErrRand.   (* the error of rand.Read *)

(** utils.go:8-14, given what [rand.Read] put into the ten bytes, or that
    it failed. *)
Definition makeSecret (random : option (list N)) : secret_error + string :=
  match random with
  | None => inl ErrRand
  | Some bytes => inr (hex_EncodeToString bytes)
  end.

(** client.go:60-88, with [makeSecret] called. *)
Definition NewTwitchClient_random (random : option (list N))
    (clientID clientSecret callbackURL : string) (debug : bool)
  : secret_error + TwitchClient :=
  match makeSecret random with
  | inl e => inl e
  | inr secret => inr (NewTwitchClient clientID clientSecret callbackURL secret debug)
  end.

Example makeSecret_bytes :
  makeSecret (Some [0; 1; 15; 16; 171; 255; 7; 8; 9; 10]%N) = inr "00010f10abff0708090a".
Proof. reflexivity. Qed.

(** * Further properties *)

(** ** Queries *)

(** X1.  Reading an encoded query back gives every key with every value,
    the keys in sorted order, whatever bytes the keys and values hold. *)
Theorem Query_Encode (v : Url.Values) :
  UrlParse.Query (Url.Encode v) = pairs v.
Proof. rewrite Encode_pairs. apply Query_join_amp. Qed.

Lemma RawQuery_callback cb q :
  UrlParse.contains "?" cb = false ->
  UrlParse.contains "#" cb = false ->
  UrlParse.contains "#" q = false ->
  UrlParse.RawQuery (cb +:+ "?" +:+ q) = q.
Proof.
  intros H1 H2 H3. unfold UrlParse.RawQuery.
  rewrite cut_absent.
  2: { rewrite !contains_app, H2, H3. reflexivity. }
  change ("?" +:+ q) with (String "?" q).
  rewrite cut_first by exact H1. reflexivity.
Qed.

Lemma callback_query callbackURL topic userID url :
  UrlParse.contains "?" callbackURL = false ->
  UrlParse.contains "#" callbackURL = false ->
  makeCallbackURL callbackURL topic userID = inr url ->
  UrlParse.Query (UrlParse.RawQuery url) = [("topic", topic); ("user_id", userID)].
Proof.
  intros H1 H2 Hu. unfold makeCallbackURL in Hu. inversion Hu; subst. clear Hu.
  rewrite RawQuery_callback; try assumption.
  - rewrite Encode_pairs, Query_join_amp. reflexivity.
  - rewrite Encode_pairs. apply join_amp_separator. tauto.
Qed.

(** X2.  When the configured callback URL has no query and no fragment of
    its own, the query of the URL [makeCallbackURL] builds reads back as
    the topic and the user id it was built from. *)
Theorem makeCallbackURL_reads_back (callbackURL topic userID url : string) :
  UrlParse.contains "?" callbackURL = false ->
  UrlParse.contains "#" callbackURL = false ->
  makeCallbackURL callbackURL topic userID = inr url ->
  UrlParse.Query (UrlParse.RawQuery url) = [("topic", topic); ("user_id", userID)]
  /\ Url.Get (UrlParse.Query (UrlParse.RawQuery url)) "topic" = topic
  /\ Url.Get (UrlParse.Query (UrlParse.RawQuery url)) "user_id" = userID.
Proof.
  intros H1 H2 Hu.
  rewrite (callback_query _ _ _ _ H1 H2 Hu). repeat split.
Qed.

Lemma makeCallbackURL_reads_back_witness :
  UrlParse.Query (UrlParse.RawQuery "http://cb/hook?topic=streams&user_id=a+b%2F%26x%3D1")
  = [("topic", "streams"); ("user_id", "a b/&x=1")].
Proof.
  refine (proj1 (makeCallbackURL_reads_back "http://cb/hook" "streams" "a b/&x=1"
                   _ _ _ _)); reflexivity.
Defined.

(** A callback URL with a query of its own swallows the topic: the
    handler then finds no [topic] parameter. *)
Example callback_with_query_loses_topic :
  Url.Get (UrlParse.Query (UrlParse.RawQuery
             (match makeCallbackURL "http://cb/hook?k=v" "streams" "42" with
              | inr url => url
              | inl _ => ""
              end))) "topic" = "".
Proof. reflexivity. Qed.

Lemma subscription_Callback c sw s :
  subscription c sw = inr s ->
  makeCallbackURL (callbackURL c) (sw_topic sw) (sw_userID sw) = inr (Callback s).
Proof.
  unfold subscription.
  destruct (makeTopicURL _ _); [discriminate |].
  unfold makeCallbackURL. intros H; inversion H; subst. reflexivity.
Qed.

(** X3.  Routing: when the configured callback URL has no query and no
    fragment, the parameters the handler reads from the callback URL of
    a subscription are the key of the watcher that subscribed, and the
    request is on the delivery path. *)
Theorem callback_routes_to_watcher
    (net : nat -> HttpRequest -> NetResult) (clock : nat -> Z)
    (parse_rfc3339 : string -> option Z)
    (w : World) (topic userID : string) (w1 : World) (sw : StreamWatcher)
    (s : WebhookSubscription) :
  addStreamWatcher net clock parse_rfc3339 w topic userID = (w1, inr sw) ->
  UrlParse.contains "?" (callbackURL (client w)) = false ->
  UrlParse.contains "#" (callbackURL (client w)) = false ->
  subscription (client w) sw = inr s ->
  let q := UrlParse.Query (UrlParse.RawQuery (Callback s)) in
  lookupStreamWatcher (client w1) (Url.Get q "topic") (Url.Get q "user_id") = Some sw
  /\ forall body, delivery_mode (mkWebhookRequest q body).
Proof.
  intros Hadd H1 H2 Hs q.
  destruct (addStreamWatcher_ok_registry _ _ _ _ _ _ _ _ Hadd) as (Hsw & _ & Hreg).
  apply subscription_Callback in Hs.
  pose proof (callback_query _ _ _ _ H1 H2 Hs) as Hq.
  fold q in Hq. split.
  - rewrite Hq. subst sw. simpl. unfold lookupStreamWatcher. rewrite Hreg.
    apply lookup_insert_eq.
  - intros body. unfold delivery_mode. simpl. rewrite Hq. simpl.
    repeat split; discriminate.
Qed.

Lemma callback_routes_to_watcher_witness :
  lookupStreamWatcher
    (client (fst (WatchStream Scenario.net_up Scenario.clock_from_1000
                    Scenario.no_rfc3339 Scenario.w0 "42")))
    "streams" "42"
  = Some (newStreamWatcher "streams" "42").
Proof.
  refine (proj1 (callback_routes_to_watcher Scenario.net_up Scenario.clock_from_1000
                   Scenario.no_rfc3339 Scenario.w0 "streams" "42"
                   (fst (WatchStream Scenario.net_up Scenario.clock_from_1000
                           Scenario.no_rfc3339 Scenario.w0 "42"))
                   (newStreamWatcher "streams" "42")
                   (mkWebhookSubscription "subscribe"
                      "https://api.twitch.tv/helix/streams?user_id=42"
                      "http://cb?topic=streams&user_id=42" "600" "s3cr3t")
                   _ _ _ _)).
  - vm_compute. reflexivity.
  - reflexivity.
  - reflexivity.
  - vm_compute. reflexivity.
Defined.

(** X4.  A watch for the empty user id can be accepted, but its watcher
    never receives anything: every delivery to its callback URL is
    answered 200 and dropped before the registry is read. *)
Theorem empty_user_id_is_never_delivered
    (net : nat -> HttpRequest -> NetResult) (clock : nat -> Z)
    (parse_rfc3339 : string -> option Z)
    (w : World) (topic : string) (w1 : World) (sw : StreamWatcher)
    (s : WebhookSubscription) :
  addStreamWatcher net clock parse_rfc3339 w topic "" = (w1, inr sw) ->
  UrlParse.contains "?" (callbackURL (client w)) = false ->
  UrlParse.contains "#" (callbackURL (client w)) = false ->
  subscription (client w) sw = inr s ->
  lookupStreamWatcher (client w1) topic "" = Some sw
  /\ forall c body,
       WebhookHandler c
         (mkWebhookRequest (UrlParse.Query (UrlParse.RawQuery (Callback s))) body)
       = (c, Responded StatusOK "").
Proof.
  intros Hadd H1 H2 Hs.
  apply subscription_Callback in Hs.
  destruct (addStreamWatcher_ok_registry _ _ _ _ _ _ _ _ Hadd) as (Hsw & _ & Hreg).
  subst sw. simpl in Hs.
  pose proof (callback_query _ _ _ _ H1 H2 Hs) as Hq.
  split.
  - unfold lookupStreamWatcher. rewrite Hreg. apply lookup_insert_eq.
  - intros c body. apply delivery_failures.
    + unfold delivery_mode. simpl. rewrite Hq. simpl. repeat split; discriminate.
    + right. left. simpl. rewrite Hq. reflexivity.
Qed.

Lemma empty_user_id_is_never_delivered_witness :
  lookupStreamWatcher
    (client (fst (WatchStream Scenario.net_up Scenario.clock_from_1000
                    Scenario.no_rfc3339 Scenario.w0 "")))
    "streams" ""
  = Some (newStreamWatcher "streams" "").
Proof.
  refine (proj1 (empty_user_id_is_never_delivered Scenario.net_up
                   Scenario.clock_from_1000 Scenario.no_rfc3339 Scenario.w0 "streams"
                   (fst (WatchStream Scenario.net_up Scenario.clock_from_1000
                           Scenario.no_rfc3339 Scenario.w0 ""))
                   (newStreamWatcher "streams" "")
                   (mkWebhookSubscription "subscribe"
                      "https://api.twitch.tv/helix/streams?user_id="
                      "http://cb?topic=streams&user_id=" "600" "s3cr3t")
                   _ _ _ _)).
  - vm_compute. reflexivity.
  - reflexivity.
  - reflexivity.
  - vm_compute. reflexivity.
Defined.

(** ** Channels *)

Lemma try_send_cap {T : Type} (ch : chan T) (v : T) :
  chan_cap (fst (try_send ch v)) = chan_cap ch.
Proof. unfold try_send. repeat break_match; reflexivity. Qed.

Lemma try_send_bound {T : Type} (ch : chan T) (v : T) :
  (length (chan_buf ch) <= chan_cap ch)%nat ->
  (length (chan_buf (fst (try_send ch v))) <= chan_cap ch)%nat.
Proof.
  unfold try_send. intros H. destruct (chan_closed ch); [exact H |].
  destruct (Nat.ltb_spec (length (chan_buf ch)) (chan_cap ch)); simpl; [| exact H].
  rewrite length_app. simpl. lia.
Qed.

(** What a loop of sends over [l] leaves in an open channel: the queue,
    then as many entries of [l], in their order, as there was room for. *)
Definition queued {T : Type} (ch : chan T) (l : list T) : chan T :=
  match l with
  | [] => ch
  | _ =>
      if (length (chan_buf ch) <? chan_cap ch)%nat
      then mkChan (chan_cap ch)
             (chan_buf ch ++ take (chan_cap ch - length (chan_buf ch)) l) false
      else ch
  end.

Lemma send_streams_open streams : forall ch,
  chan_closed ch = false ->
  send_streams ch streams = (queued ch streams, true).
Proof.
  induction streams as [| s rest IH]; intros ch Hopen; [reflexivity |].
  simpl send_streams. rewrite (try_send_open _ _ Hopen).
  unfold queued.
  destruct (Nat.ltb_spec (length (chan_buf ch)) (chan_cap ch)) as [Hlt | Hge].
  - rewrite IH by reflexivity. f_equal. unfold queued. simpl chan_buf. simpl chan_cap.
    rewrite length_app. simpl length.
    destruct (chan_cap ch - length (chan_buf ch))%nat as [| n] eqn:Hn; [lia |].
    simpl take. destruct rest as [| s' rest'].
    + rewrite take_nil. reflexivity.
    + destruct (Nat.ltb_spec (length (chan_buf ch) + 1) (chan_cap ch)) as [Hlt' | Hge'].
      * rewrite <- app_assoc. simpl.
        replace (chan_cap ch - (length (chan_buf ch) + 1))%nat with n by lia.
        reflexivity.
      * replace n with 0%nat by lia. reflexivity.
  - rewrite IH by exact Hopen. f_equal. unfold queued.
    destruct rest; [reflexivity |].
    destruct (Nat.ltb_spec (length (chan_buf ch)) (chan_cap ch)); [lia | reflexivity].
Qed.

(** X5.  A streams delivery with entries, for a registered watcher whose
    streams channel is open, queues the entries in their order as far as
    the buffer has room and drops the later ones; what was queued before
    stays in front, the follows channel is not touched, and the answer
    is 200. *)
Theorem streams_delivery_queues_in_order (c : TwitchClient) (r : WebhookRequest)
    (sw : StreamWatcher) (body : Json.text) (response : Response)
    (streams : list (option Stream)) :
  delivery_mode r ->
  Url.Get (wr_query r) "topic" = "streams" ->
  Url.Get (wr_query r) "user_id" <> "" ->
  lookupStreamWatcher c "streams" (Url.Get (wr_query r) "user_id") = Some sw ->
  wr_body r = Some body ->
  marshalResponse body = Some response ->
  unmarshal_Streams (Data response) = Some streams ->
  streams <> [] ->
  chan_closed (sw_streams sw) = false ->
  let room := (chan_cap (sw_streams sw) - length (chan_buf (sw_streams sw)))%nat in
  exists sw',
    WebhookHandler c r
    = (set_streamWatchers c
         (<[makeTopicKey "streams" (Url.Get (wr_query r) "user_id") := sw']>
            (streamWatchers c)),
       Responded StatusOK "")
    /\ chan_buf (sw_streams sw') = chan_buf (sw_streams sw) ++ take room streams
    /\ sw_follows sw' = sw_follows sw.
Proof.
  intros Hmode Ht Hu Hsw Hb Hm Hd Hne Hopen room.
  exists (set_streams sw (queued (sw_streams sw) streams)).
  split; [| split].
  - rewrite (delivery_mode_deliver c r Hmode).
    unfold deliver. unfold lookupStreamWatcher in Hsw. rewrite Ht.
    destruct (String.eqb_spec (Url.Get (wr_query r) "user_id") ""); [contradiction |].
    simpl. rewrite Hsw, Hb, Hm, Hd.
    destruct streams as [| s rest]; [contradiction |].
    rewrite (send_streams_open _ _ Hopen). reflexivity.
  - simpl. unfold queued. destruct streams as [| s rest]; [contradiction |].
    destruct (Nat.ltb_spec (length (chan_buf (sw_streams sw))) (chan_cap (sw_streams sw))).
    + reflexivity.
    + subst room.
      replace (chan_cap (sw_streams sw) - length (chan_buf (sw_streams sw)))%nat
        with 0%nat by lia.
      simpl. rewrite app_nil_r. reflexivity.
  - reflexivity.
Qed.

(** A client whose watcher for the stream of user 42 has four entries
    queued. *)
Definition client_with_one_slot : TwitchClient :=
  set_streamWatchers Scenario.c0
    {[ "streams/42" :=
         set_streams (newStreamWatcher "streams" "42")
           (mkChan 5 [None; None; None; None] false) ]}.

(** [{"data":[{"viewer_count":1},{"viewer_count":2}]}]. *)
Definition two_streams : Json.value :=
  Json.Obj [("data", Json.Arr [Json.Obj [("viewer_count", Json.Int 1)];
                              Json.Obj [("viewer_count", Json.Int 2)]])].

Lemma streams_delivery_queues_in_order_witness :
  exists sw',
    WebhookHandler client_with_one_slot (Inbound.delivery "streams" two_streams)
    = (set_streamWatchers client_with_one_slot
         (<["streams/42" := sw']> (streamWatchers client_with_one_slot)),
       Responded StatusOK "")
    /\ chan_buf (sw_streams sw')
       = [None; None; None; None; Some (mkStream "" "" "" [] "" "" 1 "" "" "")]
    /\ sw_follows sw' = make_chan 5.
Proof.
  refine (streams_delivery_queues_in_order client_with_one_slot
            (Inbound.delivery "streams" two_streams)
            (set_streams (newStreamWatcher "streams" "42")
               (mkChan 5 [None; None; None; None] false))
            (Json.Valid two_streams)
            (mkResponse (Some (Json.Arr [Json.Obj [("viewer_count", Json.Int 1)];
                                         Json.Obj [("viewer_count", Json.Int 2)]])))
            [Some (mkStream "" "" "" [] "" "" 1 "" "" "");
             Some (mkStream "" "" "" [] "" "" 2 "" "" "")]
            _ _ _ _ _ _ _ _ _).
  - repeat split; discriminate.
  - reflexivity.
  - discriminate.
  - vm_compute. reflexivity.
  - reflexivity.
  - reflexivity.
  - reflexivity.
  - discriminate.
  - reflexivity.
Defined.

(** ** What the dispatcher leaves alone *)

(** One channel before and after sends: same capacity, same closed flag,
    the queue extended at its end, and within the capacity if it was. *)
Definition chan_step {T : Type} (ch ch' : chan T) : Prop :=
  chan_cap ch' = chan_cap ch
  /\ chan_closed ch' = chan_closed ch
  /\ (exists more, chan_buf ch' = chan_buf ch ++ more)
  /\ ((length (chan_buf ch) <= chan_cap ch)%nat ->
      (length (chan_buf ch') <= chan_cap ch)%nat).

Lemma chan_step_refl {T : Type} (ch : chan T) : chan_step ch ch.
Proof.
  repeat split; auto. exists []. rewrite app_nil_r. reflexivity.
Qed.

Lemma chan_step_trans {T : Type} (a b c : chan T) :
  chan_step a b -> chan_step b c -> chan_step a c.
Proof.
  intros (H1 & H2 & [m1 H3] & H4) (H5 & H6 & [m2 H7] & H8).
  split; [congruence |]. split; [congruence |]. split.
  - exists (m1 ++ m2). rewrite H7, H3, app_assoc. reflexivity.
  - intros H. rewrite <- H1. apply H8. rewrite H1. apply H4. exact H.
Qed.

Lemma try_send_step {T : Type} (ch : chan T) (v : T) :
  chan_step ch (fst (try_send ch v)).
Proof.
  unfold try_send. destruct (chan_closed ch) eqn:Hc; [apply chan_step_refl |].
  destruct (Nat.ltb_spec (length (chan_buf ch)) (chan_cap ch)); [| apply chan_step_refl].
  simpl. repeat split; simpl; auto.
  - exists [v]. reflexivity.
  - intros _. rewrite length_app. simpl. lia.
Qed.

Lemma send_streams_step streams : forall ch,
  chan_step ch (fst (send_streams ch streams)).
Proof.
  induction streams as [| s rest IH]; intros ch; simpl; [apply chan_step_refl |].
  pose proof (try_send_step ch s) as Hs.
  destruct (try_send ch s) as [ch' res]. simpl in Hs.
  destruct res; simpl; try exact Hs;
    eapply chan_step_trans; [exact Hs | apply IH | exact Hs | apply IH].
Qed.

Lemma send_follows_step follows : forall ch,
  chan_step ch (fst (send_follows ch follows)).
Proof.
  induction follows as [| [f |] rest IH]; intros ch; simpl; try apply chan_step_refl.
  pose proof (try_send_step ch (Some f)) as Hs.
  destruct (try_send ch (Some f)) as [ch' res]. simpl in Hs.
  destruct res; simpl; try exact Hs;
    eapply chan_step_trans; [exact Hs | apply IH | exact Hs | apply IH].
Qed.

(** One watcher before and after a delivery. *)
Definition watcher_step (sw sw' : StreamWatcher) : Prop :=
  sw_topic sw' = sw_topic sw /\ sw_userID sw' = sw_userID sw
  /\ sw_lease sw' = sw_lease sw /\ sw_cancelled sw' = sw_cancelled sw
  /\ chan_step (sw_streams sw) (sw_streams sw')
  /\ chan_step (sw_follows sw) (sw_follows sw').

Lemma watcher_step_refl sw : watcher_step sw sw.
Proof. repeat split; try apply chan_step_refl. Qed.

(** The shape of what the delivery branch returns: the client as it was,
    or the client with the addressed watcher put back after sends on the
    channel of the topic. *)
Lemma deliver_shape c r c' resp :
  deliver c r = (c', resp) ->
  c' = c
  \/ exists sw sw',
       streamWatchers c
         !! makeTopicKey (Url.Get (wr_query r) "topic") (Url.Get (wr_query r) "user_id")
       = Some sw
       /\ watcher_step sw sw'
       /\ ((Url.Get (wr_query r) "topic" = "streams" /\ sw_follows sw' = sw_follows sw)
           \/ (Url.Get (wr_query r) "topic" = "follows" /\ sw_streams sw' = sw_streams sw))
       /\ c' = set_streamWatchers c
                 (<[makeTopicKey (Url.Get (wr_query r) "topic")
                      (Url.Get (wr_query r) "user_id") := sw']> (streamWatchers c)).
Proof.
  unfold deliver.
  destruct (_ || _); [intros H; inversion H; auto |].
  destruct (streamWatchers c !! _) as [sw |] eqn:Hsw; [| intros H; inversion H; auto].
  destruct (wr_body r) as [body |]; [| intros H; inversion H; auto].
  destruct (marshalResponse body) as [response |]; [| intros H; inversion H; auto].
  destruct (String.eqb_spec (Url.Get (wr_query r) "topic") "streams") as [Ht | Ht].
  - destruct (unmarshal_Streams (Data response)) as [[| s rest] |];
      [| | intros H; inversion H; auto].
    + pose proof (try_send_step (sw_streams sw) None) as Hstep.
      destruct (try_send (sw_streams sw) None) as [ch res]. simpl in Hstep.
      intros H; inversion H; subst. right. exists sw, (set_streams sw ch).
      split; [reflexivity |]. split; [repeat split; try apply Hstep; apply chan_step_refl |].
      split; [left; split; [exact Ht | reflexivity] | reflexivity].
    + pose proof (send_streams_step (s :: rest) (sw_streams sw)) as Hstep.
      destruct (send_streams (sw_streams sw) (s :: rest)) as [ch ok]. simpl in Hstep.
      intros H; inversion H; subst. right. exists sw, (set_streams sw ch).
      split; [reflexivity |]. split; [repeat split; try apply Hstep; apply chan_step_refl |].
      split; [left; split; [exact Ht | reflexivity] | reflexivity].
  - destruct (String.eqb_spec (Url.Get (wr_query r) "topic") "follows") as [Ht' | Ht'];
      [| intros H; inversion H; auto].
    destruct (unmarshal_Follows (Data response)) as [[| s rest] |];
      [intros H; inversion H; auto | | intros H; inversion H; auto].
    pose proof (send_follows_step (s :: rest) (sw_follows sw)) as Hstep.
    destruct (send_follows (sw_follows sw) (s :: rest)) as [ch ok]. simpl in Hstep.
    intros H; inversion H; subst. right. exists sw, (set_follows sw ch).
    split; [reflexivity |]. split; [repeat split; try apply Hstep; apply chan_step_refl |].
    split; [right; split; [exact Ht' | reflexivity] | reflexivity].
Qed.

Lemma removeStreamWatcher_lookup c key k :
  streamWatchers (removeStreamWatcher c key) !! k
  = if decide (key = k) then None else streamWatchers c !! k.
Proof.
  unfold removeStreamWatcher.
  destruct (streamWatchers c !! key) eqn:Hk; simpl.
  - apply lookup_delete.
  - destruct (decide (key = k)); [subst; exact Hk | reflexivity].
Qed.

Lemma removeStreamWatcher_rest c key :
  token (removeStreamWatcher c key) = token c
  /\ same_settings c (removeStreamWatcher c key)
  /\ debug (removeStreamWatcher c key) = debug c.
Proof.
  unfold removeStreamWatcher. destruct (streamWatchers c !! key); repeat split.
Qed.

Lemma WebhookHandler_frame_of (c : TwitchClient) (r : WebhookRequest)
    (c' : TwitchClient) (resp : response) :
  WebhookHandler c r = (c', resp) ->
  token c' = token c
  /\ same_settings c c'
  /\ debug c' = debug c
  /\ forall k sw',
       streamWatchers c' !! k = Some sw' ->
       exists sw, streamWatchers c !! k = Some sw /\ watcher_step sw sw'.
Proof.
  unfold WebhookHandler.
  destruct (String.eqb _ "subscribe").
  { intros H; inversion H; subst. repeat split.
    intros k sw' Hk. exists sw'. split; [exact Hk | apply watcher_step_refl]. }
  destruct (String.eqb _ "unsubscribe").
  { intros H; inversion H; subst. repeat split.
    intros k sw' Hk. exists sw'. split; [exact Hk | apply watcher_step_refl]. }
  destruct (String.eqb _ "denied").
  { intros H; inversion H; subst.
    destruct (removeStreamWatcher_rest c (Url.Get (wr_query r) "hub.topic"))
      as (H1 & H2 & H3).
    split; [exact H1 |]. split; [exact H2 |]. split; [exact H3 |].
    intros k sw' Hk. rewrite removeStreamWatcher_lookup in Hk.
    destruct (decide _); [discriminate |].
    exists sw'. split; [exact Hk | apply watcher_step_refl]. }
  intros H. apply deliver_shape in H.
  destruct H as [-> | (sw & sw' & Hsw & Hstep & _ & ->)].
  { repeat split.
    intros k sw' Hk. exists sw'. split; [exact Hk | apply watcher_step_refl]. }
  split; [reflexivity |]. split; [repeat split |]. split; [reflexivity |].
  intros k sw0 Hk. simpl in Hk. rewrite lookup_insert in Hk.
  destruct (decide _) as [<- | _].
  - inversion Hk; subst. exists sw. split; [exact Hsw | exact Hstep].
  - exists sw0. split; [exact Hk | apply watcher_step_refl].
Qed.

(** X6.  Whatever the request, the dispatcher leaves the token and the
    configuration alone and registers nothing; a watcher that is
    registered afterwards was registered before, with the same topic,
    user id and lease, and with the queues of its channels only extended
    at their ends. *)
Theorem WebhookHandler_frame (c : TwitchClient) (r : WebhookRequest) :
  let c' := fst (WebhookHandler c r) in
  token c' = token c
  /\ same_settings c c'
  /\ debug c' = debug c
  /\ forall k sw',
       streamWatchers c' !! k = Some sw' ->
       exists sw, streamWatchers c !! k = Some sw /\ watcher_step sw sw'.
Proof.
  destruct (WebhookHandler c r) as [c' resp] eqn:H. simpl.
  exact (WebhookHandler_frame_of c r c' resp H).
Qed.

(** X7.  A delivery unregisters nothing and changes at most the watcher
    it is addressed to, and of that watcher only the channel of the
    topic: every other watcher, and the other channel, are as before. *)
Theorem delivery_touches_one_channel (c : TwitchClient) (r : WebhookRequest)
    (c' : TwitchClient) (resp : response) (k : string) (sw : StreamWatcher) :
  delivery_mode r ->
  WebhookHandler c r = (c', resp) ->
  streamWatchers c !! k = Some sw ->
  exists sw',
    streamWatchers c' !! k = Some sw'
    /\ (k <> makeTopicKey (Url.Get (wr_query r) "topic") (Url.Get (wr_query r) "user_id")
        -> sw' = sw)
    /\ (Url.Get (wr_query r) "topic" <> "follows" -> sw_follows sw' = sw_follows sw)
    /\ (Url.Get (wr_query r) "topic" <> "streams" -> sw_streams sw' = sw_streams sw).
Proof.
  intros Hmode H Hk. rewrite (delivery_mode_deliver c r Hmode) in H.
  apply deliver_shape in H.
  destruct H as [-> | (sw0 & sw1 & Hsw & _ & Hch & ->)].
  { exists sw. auto. }
  simpl. rewrite lookup_insert. destruct (decide _) as [<- | Hne].
  - rewrite Hsw in Hk. inversion Hk; subst. exists sw1.
    split; [reflexivity |]. split; [intros Hc; contradiction |].
    destruct Hch as [[Ht Hf] | [Ht Hs]]; rewrite Ht.
    + split; [intros _; exact Hf | intros Hc; contradiction].
    + split; [intros Hc; contradiction | intros _; exact Hs].
  - exists sw. split; [exact Hk |]. auto.
Qed.

Lemma delivery_touches_one_channel_witness :
  exists sw',
    streamWatchers
      (fst (WebhookHandler client_with_one_slot (Inbound.delivery "streams" two_streams)))
      !! "streams/42" = Some sw'
    /\ sw_follows sw' = make_chan 5.
Proof.
  destruct (delivery_touches_one_channel client_with_one_slot
              (Inbound.delivery "streams" two_streams)
              (fst (WebhookHandler client_with_one_slot
                      (Inbound.delivery "streams" two_streams)))
              (snd (WebhookHandler client_with_one_slot
                      (Inbound.delivery "streams" two_streams)))
              "streams/42"
              (set_streams (newStreamWatcher "streams" "42")
                 (mkChan 5 [None; None; None; None] false)))
    as (sw' & H1 & _ & H2 & _).
  - repeat split; discriminate.
  - vm_compute. reflexivity.
  - vm_compute. reflexivity.
  - exists sw'. split; [exact H1 | apply H2; discriminate].
Defined.

(** ** An invariant of the registry *)

(** A registered watcher as [addStreamWatcher] makes it and the
    dispatcher keeps it: filed under its own key, with channels of
    capacity 5 that hold at most 5 entries, and a lease of ten minutes. *)
Definition watcher_ok (k : string) (sw : StreamWatcher) : Prop :=
  k = topicKey sw
  /\ chan_cap (sw_streams sw) = 5%nat /\ chan_cap (sw_follows sw) = 5%nat
  /\ (length (chan_buf (sw_streams sw)) <= 5)%nat
  /\ (length (chan_buf (sw_follows sw)) <= 5)%nat
  /\ sw_lease sw = 10 * Time.Minute.

Definition registry_ok (c : TwitchClient) : Prop :=
  forall k sw, streamWatchers c !! k = Some sw -> watcher_ok k sw.

Lemma watcher_step_ok k sw sw' :
  watcher_ok k sw -> watcher_step sw sw' -> watcher_ok k sw'.
Proof.
  intros (Hk & Hc1 & Hc2 & Hl1 & Hl2 & Hlease)
         (Ht & Hu & Hle & _ & (Hs1 & _ & _ & Hs4) & (Hf1 & _ & _ & Hf4)).
  unfold watcher_ok, topicKey in *. rewrite Ht, Hu, Hle, Hs1, Hf1.
  repeat split; auto.
  - rewrite <- Hc1. apply Hs4. rewrite Hc1. exact Hl1.
  - rewrite <- Hc2. apply Hf4. rewrite Hc2. exact Hl2.
Qed.

Lemma WebhookHandler_registry_ok c r :
  registry_ok c -> registry_ok (fst (WebhookHandler c r)).
Proof.
  intros Hok k sw' Hk.
  destruct (WebhookHandler c r) as [c' resp] eqn:H. simpl in Hk.
  destruct (WebhookHandler_frame_of c r c' resp H) as (_ & _ & _ & Hreg).
  destruct (Hreg k sw' Hk) as (sw & Hsw & Hstep).
  eapply watcher_step_ok; [apply Hok; exact Hsw | exact Hstep].
Qed.

Lemma removeStreamWatcher_registry_ok c key :
  registry_ok c -> registry_ok (removeStreamWatcher c key).
Proof.
  intros Hok k sw Hk. rewrite removeStreamWatcher_lookup in Hk.
  destruct (decide _); [discriminate |]. apply Hok. exact Hk.
Qed.

Lemma newStreamWatcher_ok topic userID :
  watcher_ok (makeTopicKey topic userID) (newStreamWatcher topic userID).
Proof. unfold watcher_ok. simpl. repeat split; lia. Qed.

Section Invariant.

Variable net : nat -> HttpRequest -> NetResult.
Variable clock : nat -> Z.
Variable parse_rfc3339 : string -> option Z.

Lemma addStreamWatcher_locked_registry_ok w topic userID :
  registry_ok (client w) ->
  registry_ok (client (fst (addStreamWatcher_locked net clock parse_rfc3339 w topic userID))).
Proof.
  intros Hok. unfold addStreamWatcher_locked.
  destruct (streamWatchers (client w) !! makeTopicKey topic userID) eqn:Hl; [exact Hok |].
  destruct (sub _ _ _ _ _) as [w2 err] eqn:Hs.
  apply sub_frame in Hs. destruct Hs as [(_ & _ & _ & _ & _ & Hm & _) _].
  assert (Hreg : registry_ok (client w2)).
  { intros k sw Hk. rewrite Hm in Hk. simpl in Hk.
    unfold topicKey in Hk. simpl in Hk. rewrite lookup_insert in Hk.
    destruct (decide _) as [<- | _].
    - inversion Hk; subst. apply newStreamWatcher_ok.
    - apply Hok. exact Hk. }
  destruct err; exact Hreg.
Qed.

Lemma run_step_registry_ok s st :
  registry_ok (client (world s)) ->
  registry_ok (client (world (run_step net clock parse_rfc3339 s st))).
Proof.
  intros Hok. destruct st as [topic userID | | r]; simpl.
  - destruct (pending s); [exact Hok |].
    pose proof (addStreamWatcher_locked_registry_ok (world s) topic userID Hok) as H.
    destruct (addStreamWatcher_locked _ _ _ _ _ _). exact H.
  - destruct (pending s) as [[| sw e | sw] |]; simpl; try exact Hok.
    apply removeStreamWatcher_registry_ok. exact Hok.
  - pose proof (WebhookHandler_registry_ok (client (world s)) r Hok) as H.
    destruct (WebhookHandler _ _). exact H.
Qed.

End Invariant.

(** X8.  In every state a new client reaches through calls of
    [addStreamWatcher] and webhook requests, interleaved in any way and
    whatever the network answers, each registered watcher is filed under
    the key of its own topic and user id, its two channels have capacity
    5 and never hold more than 5 entries, and its lease is ten minutes. *)
Theorem registry_invariant
    (net : nat -> HttpRequest -> NetResult) (clock : nat -> Z)
    (parse_rfc3339 : string -> option Z)
    (clientID clientSecret callbackURL secret : string) (debug : bool)
    (steps : list step) :
  registry_ok
    (client (world (run net clock parse_rfc3339
       (mkSched (mkWorld (NewTwitchClient clientID clientSecret callbackURL secret debug)
                   [] 0) None [] [])
       steps))).
Proof.
  unfold run.
  assert (H0 : registry_ok (client (world
            (mkSched (mkWorld (NewTwitchClient clientID clientSecret callbackURL
                                 secret debug) [] 0) None [] [])))).
  { intros k sw Hk. simpl in Hk. rewrite lookup_empty in Hk. discriminate. }
  revert H0. generalize (mkSched (mkWorld (NewTwitchClient clientID clientSecret
                                             callbackURL secret debug) [] 0) None [] []).
  induction steps as [| st rest IH]; intros s Hs; simpl; [exact Hs |].
  apply IH. apply run_step_registry_ok. exact Hs.
Qed.

(** ** Authentication and requests *)

Section Requests.

Variable net : nat -> HttpRequest -> NetResult.
Variable clock : nat -> Z.
Variable parse_rfc3339 : string -> option Z.

(** What a successful [authenticate] did to the request: only a header
    was set, [Client-ID] without a secret, else [Authorization] with the
    token that is cached afterwards. *)
Lemma authenticate_ok_header w request w' request' :
  authenticate net clock parse_rfc3339 w request = (w', inr request') ->
  req_method request' = req_method request
  /\ req_url request' = req_url request
  /\ req_body request' = req_body request
  /\ ((clientSecret (client w) = "" /\ w' = w
       /\ req_header request'
          = Header_Set (req_header request) "Client-ID" (clientID (client w)))
      \/ (clientSecret (client w) <> ""
          /\ exists t, token (client w') = Some t
               /\ req_header request'
                  = Header_Set (req_header request) "Authorization" (bearer t))).
Proof.
  unfold authenticate.
  destruct (String.eqb (clientID (client w)) ""); [discriminate |].
  destruct (String.eqb_spec (clientSecret (client w)) "") as [Hsec | Hsec].
  { intros H; inversion H; subst. repeat split. left. auto. }
  destruct (cached_token clock w) as [w1 [t |]] eqn:Hc.
  { intros H; inversion H; subst. repeat split. right. split; [exact Hsec |].
    exists t. split; [| reflexivity].
    destruct (cached_token_frame _ _ _ _ Hc) as [Hcl _]. rewrite Hcl.
    revert Hc. unfold cached_token. destruct (token (client w)) as [t0 |]; [| discriminate].
    unfold now. destruct (Time.Before _ _); intros H'; inversion H'; subst; reflexivity. }
  destruct (doRequest net w1 _) as [w2 [e | [status body]]]; [discriminate |].
  destruct (negb (status =? 200)); [discriminate |].
  destruct (unmarshal_AccessToken parse_rfc3339 body) as [t |]; [| discriminate].
  unfold now. intros H; inversion H; subst; simpl. repeat split.
  right. split; [exact Hsec |]. eexists. split; reflexivity.
Qed.

(** An API request as [Request] sends it. *)
Definition api_request (c c' : TwitchClient) (method url : string)
    (body : option WebhookSubscription) (rq : HttpRequest) : Prop :=
  req_method rq = method /\ req_url rq = url /\ req_body rq = body
  /\ Header_Get (req_header rq) "User-Agent" = Some "libtwitch/v1"
  /\ Header_Get (req_header rq) "Content-Type" = Some "application/json"
  /\ ((clientSecret c = ""
       /\ Header_Get (req_header rq) "Client-ID" = Some (clientID c)
       /\ Header_Get (req_header rq) "Authorization" = None)
      \/ (clientSecret c <> ""
          /\ exists t, token c' = Some t
               /\ Header_Get (req_header rq) "Authorization" = Some (bearer t))).

Definition request_url (c : TwitchClient) (path : string) (params : option Url.Values)
  : string :=
  match params with
  | Some p => endpoint c +:+ path +:+ "?" +:+ Url.Encode p
  | None => endpoint c +:+ path
  end.

(** What [Request] returns for an answer of the network to the API
    request: the body is decoded before any status is looked at. *)
Definition answer_result (a : NetResult) : error + Z * option Json.value :=
  match a with
  | NetError => inl ErrTransport
  | NetResponse status b =>
      match marshalResponse b with
      | None => inl ErrJSON
      | Some response => inr (status, Data response)
      end
  end.

(** The requests of one call of [Request], in their order: the token
    request if a token was fetched, then the API request if the
    authentication succeeded. *)
Lemma Request_requests w method path params body w' res :
  Request net clock parse_rfc3339 w method path params body = (w', res) ->
  same_config (client w) (client w')
  /\ exists fetched api,
       sent w' = sent w ++ fetched ++ api
       /\ (fetched = [] \/ fetched = [token_request (client w)])
       /\ match api with
          | [] => exists e, res = inl e
          | [rq] =>
              api_request (client w) (client w') method
                (request_url (client w) path params) body rq
              /\ res = answer_result (net (length (sent w ++ fetched)) rq)
          | _ => False
          end.
Proof.
  unfold Request. fold (request_url (client w) path params).
  destruct (authenticate net clock parse_rfc3339 w _) as [w1 r1] eqn:Ha.
  destruct (authenticate_frame _ _ _ _ _ _ _ Ha) as [Hcfg Hsent].
  assert (Hf : exists fetched, sent w1 = sent w ++ fetched
                 /\ (fetched = [] \/ fetched = [token_request (client w)])).
  { destruct Hsent as [-> | ->].
    - exists []. rewrite app_nil_r. auto.
    - exists [token_request (client w)]. auto. }
  destruct Hf as (fetched & Hs1 & Hfetched).
  destruct r1 as [e | request].
  { intros H; inversion H; subst. split; [exact Hcfg |].
    exists fetched, []. rewrite app_nil_r. split; [exact Hs1 |].
    split; [exact Hfetched | eauto]. }
  destruct (authenticate_ok_header _ _ _ _ Ha) as (Hm & Hu & Hb & Hcred).
  simpl in Hm, Hu, Hb.
  set (rq := set_header (set_header request "User-Agent" "libtwitch/v1")
               "Content-Type" "application/json").
  assert (Hapi : forall c', token c' = token (client w1) ->
            api_request (client w) c' method (request_url (client w) path params) body rq).
  { intros c' Htok. unfold api_request, rq. simpl. rewrite Hm, Hu, Hb.
    split; [reflexivity |]. split; [reflexivity |]. split; [reflexivity |].
    destruct Hcred as [(Hsec & _ & Hh) | (Hsec & t & Ht & Hh)]; rewrite Hh; simpl.
    - repeat split. left. repeat split. exact Hsec.
    - repeat split. right. split; [exact Hsec |]. exists t. split; [congruence | reflexivity]. }
  unfold doRequest. rewrite Hs1.
  destruct (net (length (sent w ++ fetched)) rq) as [| status b] eqn:Hnet.
  { intros H; inversion H; subst. simpl. split; [exact Hcfg |].
    exists fetched, [rq]. rewrite app_assoc. split; [reflexivity |].
    split; [exact Hfetched |]. split; [apply Hapi; reflexivity |].
    unfold answer_result. rewrite Hnet. reflexivity. }
  destruct (marshalResponse b) as [response |] eqn:Hmr.
  - intros H; inversion H; subst. simpl. split; [exact Hcfg |].
    exists fetched, [rq]. rewrite app_assoc. split; [reflexivity |].
    split; [exact Hfetched |]. split; [apply Hapi; reflexivity |].
    unfold answer_result. rewrite Hnet, Hmr. reflexivity.
  - intros H; inversion H; subst. simpl. split; [exact Hcfg |].
    exists fetched, [rq]. rewrite app_assoc. split; [reflexivity |].
    split; [exact Hfetched |]. split; [apply Hapi; reflexivity |].
    unfold answer_result. rewrite Hnet, Hmr. reflexivity.
Qed.

End Requests.

(** X9.  A failed authentication changes nothing of the client, the
    cached token included, and has sent at most the token request;
    without a client id it fails before anything is sent or read. *)
Theorem authenticate_error_keeps_client
    (net : nat -> HttpRequest -> NetResult) (clock : nat -> Z)
    (parse_rfc3339 : string -> option Z)
    (w : World) (request : HttpRequest) (w' : World) (e : error) :
  authenticate net clock parse_rfc3339 w request = (w', inl e) ->
  client w' = client w
  /\ (sent w' = sent w \/ sent w' = sent w ++ [token_request (client w)])
  /\ (clientID (client w) = "" -> w' = w /\ e = ErrClientIDRequired).
Proof.
  intros H. destruct (authenticate_frame _ _ _ _ _ _ _ H) as [_ Hsent].
  split; [| split; [exact Hsent |]].
  - revert H. unfold authenticate.
    destruct (String.eqb (clientID (client w)) ""); [intros H; inversion H; reflexivity |].
    destruct (String.eqb (clientSecret (client w)) ""); [discriminate |].
    destruct (cached_token clock w) as [w1 [t |]] eqn:Hc; [discriminate |].
    destruct (cached_token_frame _ _ _ _ Hc) as [Hcl _].
    destruct (doRequest net w1 _) as [w2 r2] eqn:Hd.
    destruct (doRequest_sent _ _ _ _ _ Hd) as (Hd1 & _ & _).
    destruct r2 as [e' | [status body]].
    { intros H; inversion H; subst. congruence. }
    destruct (negb (status =? 200)); [intros H; inversion H; subst; congruence |].
    destruct (unmarshal_AccessToken parse_rfc3339 body);
      [unfold now; discriminate | intros H; inversion H; subst; congruence].
  - intros Hid. revert H. unfold authenticate. rewrite Hid. simpl.
    intros H; inversion H; auto.
Qed.

Lemma authenticate_error_keeps_client_witness :
  client (fst (authenticate Scenario.net_down Scenario.clock_from_1000
                 Scenario.no_rfc3339 Scenario.w0 Scenario.get_users))
  = client Scenario.w0.
Proof.
  refine (proj1 (authenticate_error_keeps_client Scenario.net_down
                   Scenario.clock_from_1000 Scenario.no_rfc3339
                   Scenario.w0 Scenario.get_users _ ErrTransport _)).
  vm_compute. reflexivity.
Defined.


(** X11.  Once a token was fetched, every later authentication whose
    clock reading is past the reading of the fetch reuses that token and
    sends nothing, however late it is: the cached expiry is the time of
    the fetch, and the cache test takes an expiry in the past for a
    hit. *)
Theorem fetched_token_is_reused_forever
    (net : nat -> HttpRequest -> NetResult) (clock : nat -> Z)
    (parse_rfc3339 : string -> option Z)
    (w : World) (request : HttpRequest) (w1 : World) (request1 : HttpRequest) :
  token (client w) = None ->
  clientSecret (client w) <> "" ->
  authenticate net clock parse_rfc3339 w request = (w1, inr request1) ->
  exists t,
    token (client w1) = Some t
    /\ forall w2 request2,
         client w2 = client w1 ->
         clock (clock_reads w) < clock (clock_reads w2) ->
         authenticate net clock parse_rfc3339 w2 request2
         = (mkWorld (client w2) (sent w2) (S (clock_reads w2)),
            inr (set_header request2 "Authorization" (bearer t))).
Proof.
  intros Htok Hsec H.
  destruct (authenticate_fetch_expiry _ _ _ _ _ _ _ Htok Hsec H) as (t & Ht & _ & Hexp).
  destruct (authenticate_frame _ _ _ _ _ _ _ H) as [(_ & Hid & Hs & _) _].
  assert (Hidne : String.eqb (clientID (client w)) "" = false).
  { revert H. unfold authenticate.
    destruct (String.eqb (clientID (client w)) ""); [discriminate | reflexivity]. }
  exists t. split; [exact Ht |].
  intros w2 request2 Hc Hlater. unfold authenticate.
  rewrite Hc, Hid, Hs, Hidne.
  destruct (String.eqb_spec (clientSecret (client w)) ""); [contradiction |].
  unfold cached_token, now. rewrite Hc, Ht. unfold Time.Before.
  rewrite Hexp. destruct (Z.ltb_spec (clock (clock_reads w)) (clock (clock_reads w2))); [| lia].
  reflexivity.
Qed.

Lemma fetched_token_is_reused_forever_witness :
  exists t,
    token (client (fst (authenticate Scenario.net_up Scenario.clock_from_1000
                          Scenario.no_rfc3339 Scenario.w0 Scenario.get_users)))
    = Some t.
Proof.
  destruct (fetched_token_is_reused_forever Scenario.net_up Scenario.clock_from_1000
              Scenario.no_rfc3339 Scenario.w0 Scenario.get_users
              (fst (authenticate Scenario.net_up Scenario.clock_from_1000
                      Scenario.no_rfc3339 Scenario.w0 Scenario.get_users))
              (set_header Scenario.get_users "Authorization" "Bearer abc"))
    as (t & Ht & _).
  - reflexivity.
  - discriminate.
  - vm_compute. reflexivity.
  - exists t. exact Ht.
Defined.

(** ** The lookups *)

(** What a lookup returns for an answer of the network to its request. *)
Definition lookup_outcome {T : Type}
    (unmarshal : option Json.value -> option (list (option T))) (a : NetResult)
  : lookup_error + option T :=
  match answer_result a with
  | inl e => inl (LookupRequest e)
  | inr (status, data) =>
      if negb (status =? StatusOK) then inl (LookupStatus status)
      else
        match unmarshal data with
        | None => inl LookupParse
        | Some l => one_result l
        end
  end.

(** The requests and the result of a lookup on [path] that decodes with
    [unmarshal]. *)
Definition lookup_run {T : Type} (net : nat -> HttpRequest -> NetResult)
    (unmarshal : option Json.value -> option (list (option T)))
    (path k v : string) (w w' : World) (res : lookup_error + option T) : Prop :=
  same_config (client w) (client w')
  /\ exists fetched api,
       sent w' = sent w ++ fetched ++ api
       /\ (fetched = [] \/ fetched = [token_request (client w)])
       /\ match api with
          | [] => exists e, res = inl (LookupRequest e)
          | [rq] =>
              api_request (client w) (client w') "GET"
                (endpoint (client w) +:+ path +:+ "?" +:+ Url.Encode [(k, [v])]) None rq
              /\ res = lookup_outcome unmarshal (net (length (sent w ++ fetched)) rq)
          | _ => False
          end.

Section LookupFacts.

Variable net : nat -> HttpRequest -> NetResult.
Variable clock : nat -> Z.
Variable parse_rfc3339 : string -> option Z.

Ltac lookup_run_tac H :=
  match type of H with
  | context [Request ?n ?c ?p ?w ?m ?path ?params ?body] =>
      destruct (Request n c p w m path params body) as [w1 r1] eqn:Hr;
      destruct (Request_requests _ _ _ _ _ _ _ _ _ _ Hr)
        as (Hcfg & fetched & api & Hs & Hf & Ha);
      assert (Hw : w1 = _ /\ True) by (split; [| exact I]; reflexivity);
      clear Hw;
      unfold lookup_run;
      destruct api as [| rq [| rq' rest]]; [| | contradiction];
      [ destruct Ha as [e ->]; inversion H; subst;
        split; [exact Hcfg |]; exists fetched, []; eauto
      | destruct Ha as [Hapi ->];
        split;
        [ revert H; unfold answer_result;
          repeat break_match; intros H; inversion H; subst; exact Hcfg
        | exists fetched, [rq]; split;
          [ revert H; unfold answer_result;
            repeat break_match; intros H; inversion H; subst; exact Hs
          | split; [exact Hf |]; split;
            [ revert H; unfold answer_result; simpl in Hapi;
              repeat break_match; intros H; inversion H; subst; exact Hapi
            | revert H; unfold lookup_outcome, answer_result;
              repeat break_match; intros H; inversion H; subst; congruence ] ] ] ]
  end.

Lemma getUser_run w k v w' res :
  getUser net clock parse_rfc3339 w k v = (w', res) ->
  lookup_run net unmarshal_Users "users" k v w w' res.
Proof. intros H. unfold getUser in H. lookup_run_tac H. Qed.

Lemma getGame_run w k v w' res :
  getGame net clock parse_rfc3339 w k v = (w', res) ->
  lookup_run net unmarshal_Games "games" k v w w' res.
Proof. intros H. unfold getGame in H. lookup_run_tac H. Qed.

Lemma getStream_run w k v w' res :
  getStream net clock parse_rfc3339 w k v = (w', res) ->
  lookup_run net unmarshal_Streams "streams" k v w w' res.
Proof. intros H. unfold getStream in H. lookup_run_tac H. Qed.

End LookupFacts.

(** A lookup found [x]: the client kept its configuration and registry,
    and the last request sent is the GET of the lookup, with credentials,
    answered 200 with a body whose [data] decodes to the one entry [x]. *)
Definition found {T : Type} (net : nat -> HttpRequest -> NetResult)
    (unmarshal : option Json.value -> option (list (option T)))
    (path k v : string) (w w' : World) (x : option T) : Prop :=
  same_config (client w) (client w')
  /\ exists rq b response,
       last (sent w') = Some rq
       /\ api_request (client w) (client w') "GET"
            (endpoint (client w) +:+ path +:+ "?" +:+ Url.Encode [(k, [v])]) None rq
       /\ net (length (sent w') - 1)%nat rq = NetResponse StatusOK b
       /\ marshalResponse b = Some response
       /\ unmarshal (Data response) = Some [x].

Lemma lookup_run_found {T : Type} net
    (unmarshal : option Json.value -> option (list (option T)))
    path k v w w' (x : option T) :
  lookup_run net unmarshal path k v w w' (inr x) ->
  found net unmarshal path k v w w' x.
Proof.
  intros (Hcfg & fetched & api & Hs & _ & Ha). split; [exact Hcfg |].
  destruct api as [| rq [| rq' rest]]; [destruct Ha as [e He]; discriminate | | contradiction].
  destruct Ha as [Hapi Hres].
  unfold lookup_outcome, answer_result in Hres.
  destruct (net (length (sent w ++ fetched)) rq) as [| status b] eqn:Hnet; [discriminate |].
  destruct (marshalResponse b) as [response |] eqn:Hm; [| discriminate].
  destruct (Z.eqb_spec status StatusOK) as [-> | Hne]; simpl in Hres; [| discriminate].
  destruct (unmarshal (Data response)) as [[| y [| z l]] |] eqn:Hu; try discriminate.
  simpl in Hres. inversion Hres; subst.
  exists rq, b, response. rewrite Hs, app_assoc, last_snoc, length_app. simpl.
  replace (length (sent w ++ fetched) + 1 - 1)%nat with (length (sent w ++ fetched)) by lia.
  auto.
Qed.

(** X12.  A lookup returns an entry only when the API answered 200 to
    its GET on the path of the lookup with the key and value asked for,
    sent with credentials, and the [data] of the answer decodes to
    exactly that one entry; the lookup leaves the registry and the
    configuration of the client alone. *)
Theorem lookups_are_sound
    (net : nat -> HttpRequest -> NetResult) (clock : nat -> Z)
    (parse_rfc3339 : string -> option Z) (w : World) (k v : string) :
  (forall w' u, getUser net clock parse_rfc3339 w k v = (w', inr u) ->
                found net unmarshal_Users "users" k v w w' u)
  /\ (forall w' g, getGame net clock parse_rfc3339 w k v = (w', inr g) ->
                   found net unmarshal_Games "games" k v w w' g)
  /\ (forall w' s, getStream net clock parse_rfc3339 w k v = (w', inr s) ->
                   found net unmarshal_Streams "streams" k v w w' s).
Proof.
  split; [| split]; intros w' x H; apply lookup_run_found.
  - eapply getUser_run; eauto.
  - eapply getGame_run; eauto.
  - eapply getStream_run; eauto.
Qed.

(** A network in which the identity endpoint answers as in [net_up] and
    the API answers 200 with [{"data":[{"user_id":"42","viewer_count":10}]}]. *)
Definition net_stream_up (n : nat) (r : HttpRequest) : NetResult :=
  if String.prefix oAuthTokenEndpoint (req_url r)
  then NetResponse 200 Scenario.token_response
  else NetResponse StatusOK (Json.Valid Inbound.stream_up).

Lemma lookups_are_sound_witness :
  found net_stream_up unmarshal_Streams "streams" "user_id" "42" Scenario.w0
    (fst (GetStreamByUserID net_stream_up Scenario.clock_from_1000 Scenario.no_rfc3339
            Scenario.w0 "42"))
    (Some Inbound.stream_42).
Proof.
  refine (proj2 (proj2 (lookups_are_sound net_stream_up Scenario.clock_from_1000
                          Scenario.no_rfc3339 Scenario.w0 "user_id" "42")) _ _ _).
  vm_compute. reflexivity.
Defined.

(** X13.  How [getUser] reads the answer to its GET.  A body that is not
    a JSON object is an "error making request" whatever the status; else
    a status other than 200 is reported with its code; with 200, a
    missing [data] is a parse failure, [null] and the empty array are
    "not found", two or more entries are "multiple results", and the
    single entry [null] is returned as a nil user without an error. *)
Theorem getUser_reads_the_answer
    (net : nat -> HttpRequest -> NetResult) (clock : nat -> Z)
    (parse_rfc3339 : string -> option Z)
    (w : World) (k v : string) (w' : World) (res : lookup_error + option User)
    (pre : list HttpRequest) (rq : HttpRequest) (status : Z) (b : Json.text) :
  getUser net clock parse_rfc3339 w k v = (w', res) ->
  sent w' = sent w ++ pre ++ [rq] ->
  req_method rq = "GET" ->
  net (length (sent w ++ pre)) rq = NetResponse status b ->
  (marshalResponse b = None -> res = inl (LookupRequest ErrJSON))
  /\ forall response,
       marshalResponse b = Some response ->
       (status <> StatusOK -> res = inl (LookupStatus status))
       /\ (status = StatusOK ->
           (Data response = None -> res = inl LookupParse)
           /\ (Data response = Some Json.Null \/ Data response = Some (Json.Arr []) ->
               res = inl ErrNotFound)
           /\ (Data response = Some (Json.Arr [Json.Null]) -> res = inr None)
           /\ (forall x y l, unmarshal_Users (Data response) = Some (x :: y :: l) ->
                             res = inl ErrMultipleResults)).
Proof.
  intros H Hsent Hget Hnet.
  apply getUser_run in H. destruct H as (_ & fetched & api & Hs & Hf & Ha).
  assert (Hres : res = lookup_outcome unmarshal_Users (NetResponse status b)).
  { destruct api as [| rq0 [| rq' rest]]; [| | contradiction].
    - exfalso. rewrite app_nil_r in Hs. rewrite Hs in Hsent.
      apply app_inv_head in Hsent.
      destruct Hf as [-> | ->]; [destruct pre; discriminate |].
      destruct pre as [| p [| p' pre']]; try discriminate.
      inversion Hsent; subst. discriminate.
    - destruct Ha as [_ ->]. rewrite Hs in Hsent. apply app_inv_head in Hsent.
      apply app_inj_tail in Hsent. destruct Hsent as [-> ->].
      rewrite Hnet. reflexivity. }
  rewrite Hres. unfold lookup_outcome, answer_result. split.
  - intros ->. reflexivity.
  - intros response ->. split.
    + intros Hne. destruct (Z.eqb_spec status StatusOK); [contradiction | reflexivity].
    + intros ->. simpl. repeat split.
      * intros ->. reflexivity.
      * intros [-> | ->]; reflexivity.
      * intros ->. reflexivity.
      * intros x y l ->. reflexivity.
Qed.

(** A network in which the API answers 200 with [{"data":[null]}]. *)
Definition net_null_entry (n : nat) (r : HttpRequest) : NetResult :=
  if String.prefix oAuthTokenEndpoint (req_url r)
  then NetResponse 200 Scenario.token_response
  else NetResponse StatusOK (Json.Valid Inbound.null_entry).

Lemma getUser_reads_the_answer_witness :
  snd (GetUserByName net_null_entry Scenario.clock_from_1000 Scenario.no_rfc3339
         Scenario.w0 "x")
  = inr None.
Proof.
  pose proof (getUser_reads_the_answer net_null_entry Scenario.clock_from_1000
                Scenario.no_rfc3339 Scenario.w0 "login" "x"
                (fst (GetUserByName net_null_entry Scenario.clock_from_1000
                        Scenario.no_rfc3339 Scenario.w0 "x"))
                (snd (GetUserByName net_null_entry Scenario.clock_from_1000
                        Scenario.no_rfc3339 Scenario.w0 "x"))
                [token_request Scenario.c0]
                (mkHttpRequest "GET" "https://api.twitch.tv/helix/users?login=x"
                   [("Authorization", "Bearer abc"); ("User-Agent", "libtwitch/v1");
                    ("Content-Type", "application/json")] None)
                StatusOK (Json.Valid Inbound.null_entry)) as H.
  destruct H as [_ H].
  - vm_compute. reflexivity.
  - vm_compute. reflexivity.
  - reflexivity.
  - reflexivity.
  - destruct (H (mkResponse (Some (Json.Arr [Json.Null]))) eq_refl) as [_ H'].
    destruct (H' eq_refl) as (_ & _ & H3 & _). apply H3. reflexivity.
Defined.

(** ** The renewal loop after cancellation *)

(** X14.  The renewal loop returns at the first cancellation it
    receives: ticks that come after it cause no subscribe call and no
    request, whatever came before. *)
Theorem resub_stops_at_Done
    (net : nat -> HttpRequest -> NetResult) (clock : nat -> Z)
    (parse_rfc3339 : string -> option Z)
    (sw : StreamWatcher) (before after : list resub_event) (w : World) :
  resub net clock parse_rfc3339 w sw (before ++ Done :: after)
  = (fst (resub net clock parse_rfc3339 w sw before), Returned).
Proof.
  revert w. induction before as [| ev rest IH]; intros w; simpl; [reflexivity |].
  destruct ev; [| reflexivity].
  destruct (sub net clock parse_rfc3339 w sw) as [w1 err].
  rewrite IH.
  destruct (resub net clock parse_rfc3339 w1 sw rest) as [[w2 log] st]. reflexivity.
Qed.

(** ** The registry *)

Section RegistryFacts.

Variable net : nat -> HttpRequest -> NetResult.
Variable clock : nat -> Z.
Variable parse_rfc3339 : string -> option Z.

Lemma sub_error_kind w sw w' e :
  sub net clock parse_rfc3339 w sw = (w', Some e) -> e <> ErrAlreadySubscribed.
Proof.
  unfold sub.
  destruct (subscription (client w) sw) as [e0 | s] eqn:Hs.
  - intros H; inversion H; subst. revert Hs.
    unfold subscription, makeTopicURL, makeCallbackURL.
    destruct (String.eqb (sw_topic sw) "streams"); [discriminate |].
    destruct (String.eqb (sw_topic sw) "follows"); [discriminate |].
    intros Hs; inversion Hs; subst. discriminate.
  - destruct (Request _ _ _ _ _ _ _ _) as [w1 [e1 | [status d]]].
    + intros H; inversion H; subst. discriminate.
    + destruct (negb (status =? 202)); intros H; inversion H; subst. discriminate.
Qed.

Lemma sub_ok_topic w sw w' :
  sub net clock parse_rfc3339 w sw = (w', None) ->
  sw_topic sw = "streams" \/ sw_topic sw = "follows".
Proof.
  unfold sub, subscription, makeTopicURL.
  destruct (String.eqb_spec (sw_topic sw) "streams"); [auto |].
  destruct (String.eqb_spec (sw_topic sw) "follows"); [auto |].
  discriminate.
Qed.

End RegistryFacts.

(** X15.  [addStreamWatcher] is all or nothing for the registry.  On an
    error the registry is what it was; on success the topic is one of
    the two known ones, the key was free, and the registry is the old one
    with the new watcher, its channels empty, filed under the key.  The
    configuration is never touched. *)
Theorem addStreamWatcher_all_or_nothing
    (net : nat -> HttpRequest -> NetResult) (clock : nat -> Z)
    (parse_rfc3339 : string -> option Z) (w : World) (topic userID : string) :
  let '(w', res) := addStreamWatcher net clock parse_rfc3339 w topic userID in
  same_settings (client w) (client w')
  /\ match res with
     | inl _ => streamWatchers (client w') = streamWatchers (client w)
     | inr sw =>
         (topic = "streams" \/ topic = "follows")
         /\ sw = newStreamWatcher topic userID
         /\ lookupStreamWatcher (client w) topic userID = None
         /\ streamWatchers (client w')
            = <[makeTopicKey topic userID := sw]> (streamWatchers (client w))
     end.
Proof.
  destruct (addStreamWatcher net clock parse_rfc3339 w topic userID) as [w' res] eqn:H.
  split.
  - revert H. unfold addStreamWatcher, addStreamWatcher_locked.
    destruct (streamWatchers (client w) !! makeTopicKey topic userID).
    { simpl. intros H; inversion H; subst. repeat split. }
    destruct (sub _ _ _ _ _) as [w2 err] eqn:Hs.
    apply sub_frame in Hs. destruct Hs as [Hc _].
    apply same_config_settings in Hc. simpl in Hc.
    destruct err; simpl; intros H; inversion H; subst; simpl; [| exact Hc].
    destruct (removeStreamWatcher_rest (client w2)
                (topicKey (newStreamWatcher topic userID))) as (_ & Hr & _).
    eapply same_settings_trans; [exact Hc | exact Hr].
  - destruct res as [e | sw].
    + eapply addStreamWatcher_error_registry; eauto.
    + destruct (addStreamWatcher_ok_registry _ _ _ _ _ _ _ _ H) as (Hsw & Hnone & Hreg).
      split; [| auto].
      revert H. unfold addStreamWatcher, addStreamWatcher_locked. rewrite Hnone.
      destruct (sub _ _ _ _ _) as [w2 [e |]] eqn:Hs; simpl; [discriminate |].
      intros _. apply sub_ok_topic in Hs. exact Hs.
Qed.

(** X16.  After the entry of a key was removed, [addStreamWatcher] for
    that topic and user id does not fail as already subscribed: it
    subscribes again, and a success registers a fresh watcher. *)
Theorem removed_key_can_be_watched_again
    (net : nat -> HttpRequest -> NetResult) (clock : nat -> Z)
    (parse_rfc3339 : string -> option Z) (w : World) (topic userID : string) :
  let w0 := with_client w (removeStreamWatcher (client w) (makeTopicKey topic userID)) in
  let '(w', res) := addStreamWatcher net clock parse_rfc3339 w0 topic userID in
  res <> inl ErrAlreadySubscribed
  /\ (lookupStreamWatcher (client w') topic userID = None
      \/ lookupStreamWatcher (client w') topic userID
         = Some (newStreamWatcher topic userID)).
Proof.
  intros w0.
  assert (Hfree : streamWatchers (client w0) !! makeTopicKey topic userID = None).
  { subst w0. simpl. rewrite removeStreamWatcher_lookup.
    destruct (decide _); [reflexivity | contradiction]. }
  destruct (addStreamWatcher net clock parse_rfc3339 w0 topic userID) as [w' res] eqn:H.
  split.
  - revert H. unfold addStreamWatcher, addStreamWatcher_locked. rewrite Hfree.
    destruct (sub _ _ _ _ _) as [w2 [e |]] eqn:Hs; simpl; intros H; inversion H; subst.
    + intros Hc. inversion Hc; subst. eapply sub_error_kind; eauto.
    + discriminate.
  - unfold lookupStreamWatcher. destruct res as [e | sw].
    + left. rewrite (addStreamWatcher_error_registry _ _ _ _ _ _ _ _ H). exact Hfree.
    + right.
      destruct (addStreamWatcher_ok_registry _ _ _ _ _ _ _ _ H) as (-> & _ & ->).
      apply lookup_insert_eq.
Qed.

(** X17.  A [denied] request removes the entry whose key is literally
    its [hub.topic], and nothing else, and is answered 200; a second
    such request changes nothing more. *)
Theorem denied_removes_its_key (c : TwitchClient) (r : WebhookRequest) :
  Url.Get (wr_query r) "hub.mode" = "denied" ->
  let key := Url.Get (wr_query r) "hub.topic" in
  let c' := fst (WebhookHandler c r) in
  snd (WebhookHandler c r) = Responded StatusOK ""
  /\ (forall k, streamWatchers c' !! k
                = if decide (key = k) then None else streamWatchers c !! k)
  /\ WebhookHandler c' r = (c', Responded StatusOK "").
Proof.
  intros Hmode key c'. subst c'. unfold WebhookHandler. rewrite Hmode. simpl.
  fold key. split; [reflexivity |]. split.
  - intros k. apply removeStreamWatcher_lookup.
  - f_equal. unfold removeStreamWatcher at 1.
    rewrite removeStreamWatcher_lookup.
    destruct (decide _); [reflexivity | contradiction].
Qed.

Lemma denied_removes_its_key_witness :
  streamWatchers
    (fst (WebhookHandler client_with_watcher
            (mkWebhookRequest [("hub.mode", "denied"); ("hub.topic", "streams/42")]
               (Some Json.Empty))))
    !! "streams/42" = None.
Proof.
  destruct (denied_removes_its_key client_with_watcher
              (mkWebhookRequest [("hub.mode", "denied"); ("hub.topic", "streams/42")]
                 (Some Json.Empty)) eq_refl) as (_ & H & _).
  rewrite H. reflexivity.
Defined.

(** ** The handshake *)


(** ** The secret *)

Fixpoint all_chars (p : ascii -> bool) (s : string) : bool :=
  match s with
  | EmptyString => true
  | String a r => p a && all_chars p r
  end.

Definition lower_hex (a : ascii) : bool :=
  let n := N_of_ascii a in
  ((48 <=? n) && (n <=? 57))%N || ((97 <=? n) && (n <=? 102))%N.

Lemma hexdigit_lower_hex n : lower_hex (hexdigit n) = true.
Proof.
  unfold hexdigit.
  destruct (N.to_nat n) as [| [| [| [| [| [| [| [| [| [| [| [| [| [| [| [| k]]]]]]]]]]]]]]]];
    reflexivity.
Qed.

Lemma unhex_hexdigit n : (n < 16)%N -> UrlParse.unhex (hexdigit n) = n.
Proof.
  intros H. unfold hexdigit.
  destruct n as [| p]; [reflexivity |].
  do 4 (destruct p as [p | p |]; try reflexivity); lia.
Qed.

Lemma hex_EncodeToString_inj bytes : forall bytes',
  Forall (fun b => (b < 256)%N) bytes ->
  Forall (fun b => (b < 256)%N) bytes' ->
  hex_EncodeToString bytes = hex_EncodeToString bytes' -> bytes = bytes'.
Proof.
  induction bytes as [| b rest IH]; intros [| b' rest'] Hb Hb' H; simpl in H;
    try discriminate; [reflexivity |].
  inversion H as [[H1 H2 H3]]. inversion Hb; subst. inversion Hb'; subst.
  apply (f_equal UrlParse.unhex) in H1, H2.
  rewrite !unhex_hexdigit in H1, H2
    by (try apply N.mod_lt; try apply N.Div0.div_lt_upper_bound; lia).
  f_equal; [| apply IH; assumption].
  rewrite (N.div_mod b 16), (N.div_mod b' 16) by lia. rewrite H1, H2. reflexivity.
Qed.

(** X19.  The constructor fails exactly when the random source fails.
    Otherwise the callback secret of the new client is the bytes drawn in
    lower-case hexadecimal, two digits a byte (twenty for the ten bytes
    read), different draws give different secrets, and the client starts
    with no token and an empty registry. *)
Theorem NewTwitchClient_secret (random : option (list N))
    (clientID clientSecret callbackURL : string) (debug : bool) :
  match NewTwitchClient_random random clientID clientSecret callbackURL debug with
  | inl _ => random = None
  | inr c =>
      exists bytes,
        random = Some bytes
        /\ callbackSecret c = hex_EncodeToString bytes
        /\ String.length (callbackSecret c) = (2 * length bytes)%nat
        /\ all_chars lower_hex (callbackSecret c) = true
        /\ token c = None /\ streamWatchers c = ∅
        /\ forall bytes',
             Forall (fun b => (b < 256)%N) bytes ->
             Forall (fun b => (b < 256)%N) bytes' ->
             hex_EncodeToString bytes' = callbackSecret c -> bytes' = bytes
  end.
Proof.
  destruct random as [bytes |]; simpl; [| reflexivity].
  exists bytes. split; [reflexivity |]. split; [reflexivity |].
  split; [| split; [| split; [reflexivity | split; [reflexivity |]]]].
  - induction bytes as [| b rest IH]; simpl; [reflexivity |]. rewrite IH. lia.
  - induction bytes as [| b rest IH]; simpl; [reflexivity |].
    rewrite !hexdigit_lower_hex, IH. reflexivity.
  - intros bytes' Hb Hb' H. eapply hex_EncodeToString_inj; eauto.
Qed.

(** ** Follows deliveries *)

Lemma queued_cons {T : Type} (ch : chan T) (x : T) (l : list T) :
  chan_closed ch = false ->
  queued (fst (try_send ch x)) l = queued ch (x :: l)
  /\ chan_closed (fst (try_send ch x)) = false.
Proof.
  intros Hopen. rewrite (try_send_open _ _ Hopen). unfold queued.
  destruct (Nat.ltb_spec (length (chan_buf ch)) (chan_cap ch)) as [Hlt | Hge]; simpl.
  - split; [| reflexivity]. rewrite length_app. simpl.
    destruct (chan_cap ch - length (chan_buf ch))%nat as [| n] eqn:Hn; [lia |].
    simpl. destruct l as [| y l'].
    + rewrite take_nil. reflexivity.
    + destruct (Nat.ltb_spec (length (chan_buf ch) + 1) (chan_cap ch)).
      * rewrite <- app_assoc. simpl.
        replace (chan_cap ch - (length (chan_buf ch) + 1))%nat with n by lia.
        reflexivity.
      * replace n with 0%nat by lia. reflexivity.
  - split; [| exact Hopen]. destruct l; [reflexivity |].
    destruct (Nat.ltb_spec (length (chan_buf ch)) (chan_cap ch)); [lia | reflexivity].
Qed.

(** The entries of a decoded follows payload before its first nil. *)
Fixpoint before_nil (follows : list (option Follow)) : list (option Follow) :=
  match follows with
  | Some f :: rest => Some f :: before_nil rest
  | _ => []
  end.

Definition no_nil (follows : list (option Follow)) : bool :=
  forallb (fun f => match f with Some _ => true | None => false end) follows.

Lemma send_follows_open follows : forall ch,
  chan_closed ch = false ->
  send_follows ch follows = (queued ch (before_nil follows), no_nil follows).
Proof.
  induction follows as [| [f |] rest IH]; intros ch Hopen; try reflexivity.
  simpl send_follows. destruct (queued_cons ch (Some f) (before_nil rest) Hopen) as [Hq Ho].
  assert (Hres : snd (try_send ch (Some f)) <> SendOnClosed).
  { rewrite (try_send_open _ _ Hopen). destruct (_ <? _)%nat; discriminate. }
  destruct (try_send ch (Some f)) as [ch' res]. unfold fst in Hq, Ho. unfold snd in Hres.
  change (before_nil (Some f :: rest)) with (Some f :: before_nil rest). rewrite <- Hq.
  destruct res; [| | contradiction]; rewrite (IH ch' Ho); reflexivity.
Qed.

(** X20.  A follows delivery with entries, for a registered watcher whose
    follows channel is open, queues the entries before the first [null]
    in their order as far as the buffer has room; it answers 200 when no
    entry is [null] and panics at the first [null] otherwise, with the
    entries before it already queued.  The streams channel is not
    touched. *)
Theorem follows_delivery_queues_until_null (c : TwitchClient) (r : WebhookRequest)
    (sw : StreamWatcher) (body : Json.text) (response : Response)
    (follows : list (option Follow)) :
  delivery_mode r ->
  Url.Get (wr_query r) "topic" = "follows" ->
  Url.Get (wr_query r) "user_id" <> "" ->
  lookupStreamWatcher c "follows" (Url.Get (wr_query r) "user_id") = Some sw ->
  wr_body r = Some body ->
  marshalResponse body = Some response ->
  unmarshal_Follows (Data response) = Some follows ->
  follows <> [] ->
  chan_closed (sw_follows sw) = false ->
  let room := (chan_cap (sw_follows sw) - length (chan_buf (sw_follows sw)))%nat in
  exists sw',
    WebhookHandler c r
    = (set_streamWatchers c
         (<[makeTopicKey "follows" (Url.Get (wr_query r) "user_id") := sw']>
            (streamWatchers c)),
       if no_nil follows then Responded StatusOK "" else Panicked)
    /\ chan_buf (sw_follows sw')
       = chan_buf (sw_follows sw) ++ take room (before_nil follows)
    /\ sw_streams sw' = sw_streams sw.
Proof.
  intros Hmode Ht Hu Hsw Hb Hm Hd Hne Hopen room.
  exists (set_follows sw (queued (sw_follows sw) (before_nil follows))).
  split; [| split].
  - rewrite (delivery_mode_deliver c r Hmode).
    unfold deliver. unfold lookupStreamWatcher in Hsw. rewrite Ht.
    destruct (String.eqb_spec (Url.Get (wr_query r) "user_id") ""); [contradiction |].
    simpl. rewrite Hsw, Hb, Hm, Hd.
    destruct follows as [| f rest]; [contradiction |].
    rewrite (send_follows_open _ _ Hopen). reflexivity.
  - simpl. unfold queued. destruct (before_nil follows) as [| f rest].
    + rewrite take_nil, app_nil_r. reflexivity.
    + destruct (Nat.ltb_spec (length (chan_buf (sw_follows sw))) (chan_cap (sw_follows sw))).
      * reflexivity.
      * subst room.
        replace (chan_cap (sw_follows sw) - length (chan_buf (sw_follows sw)))%nat
          with 0%nat by lia.
        simpl. rewrite app_nil_r. reflexivity.
  - reflexivity.
Qed.

(** [{"data":[{"from_id":"7","to_id":"42"},null]}]. *)
Definition follow_then_null : Json.value :=
  Json.Obj [("data", Json.Arr [Json.Obj [("from_id", Json.Str "7");
                                         ("to_id", Json.Str "42")];
                              Json.Null])].

Lemma follows_delivery_queues_until_null_witness :
  exists sw',
    WebhookHandler client_with_follows_watcher
      (Inbound.delivery "follows" follow_then_null)
    = (set_streamWatchers client_with_follows_watcher
         (<["follows/42" := sw']> (streamWatchers client_with_follows_watcher)),
       Panicked)
    /\ chan_buf (sw_follows sw') = [Some (mkFollow "7" "42" "")]
    /\ sw_streams sw' = make_chan 5.
Proof.
  refine (follows_delivery_queues_until_null client_with_follows_watcher
            (Inbound.delivery "follows" follow_then_null)
            (newStreamWatcher "follows" "42")
            (Json.Valid follow_then_null)
            (mkResponse (Some (Json.Arr [Json.Obj [("from_id", Json.Str "7");
                                                   ("to_id", Json.Str "42")];
                                         Json.Null])))
            [Some (mkFollow "7" "42" ""); None]
            _ _ _ _ _ _ _ _ _).
  - repeat split; discriminate.
  - reflexivity.
  - discriminate.
  - vm_compute. reflexivity.
  - reflexivity.
  - reflexivity.
  - reflexivity.
  - discriminate.
  - reflexivity.
Defined.
